(** * Task query subsystem: parser, optimizer, compiler and execution engine

    A shallow embedding of the query subsystem of the SiYuan task plugin
    (QueryParser.ts, QueryOptimizer.ts, QueryEngine.ts, the hydration function
    of TaskData.ts and the query path of the plugin entry point), followed by
    the properties of its specification.

    Conventions of the embedding.
    - Text is ASCII: a JavaScript string is a [string] of bytes, [\s] and
      [trim] use the six ASCII white-space characters, and case folding acts
      on the letters A-Z only.
    - Numbers that the source keeps as doubles (the limit, clock readings)
      are exact integers of [Z]; the two agree below 2^53.
    - The statements about every query text are made for the texts of this
      scope ([inScope]): ASCII, and no numeral of more than 15 digits.
    - A JavaScript exception or a rejected promise is the [None] (or [Err])
      result of the function that raises it.
    - [Date.now()] and the record source are the environment of the engine. *)

From Stdlib Require Import ZArith Ascii String List Bool Lia.
From Stdlib Require Import DecimalString.
From stdpp Require Import gmap strings.

Import ListNotations.
Local Open Scope Z_scope.
Set Warnings "-register-all".

(* ===================================================================== *)
(** ** JavaScript string primitives used by the sources *)
(* ===================================================================== *)

Module JsString.

(** White space of [\s] and [String.prototype.trim], ASCII part:
    TAB, LF, VT, FF, CR and SPACE. *)
Definition isSpace (c : ascii) : bool :=
  let n := nat_of_ascii c in
  ((9 <=? n)%nat && (n <=? 13)%nat) || (n =? 32)%nat.

Definition isDigit (c : ascii) : bool :=
  let n := nat_of_ascii c in (48 <=? n)%nat && (n <=? 57)%nat.

Definition isUpper (c : ascii) : bool :=
  let n := nat_of_ascii c in (65 <=? n)%nat && (n <=? 90)%nat.

Definition lowerChar (c : ascii) : ascii :=
  if isUpper c then ascii_of_nat (nat_of_ascii c + 32) else c.

Definition upperChar (c : ascii) : ascii :=
  let n := nat_of_ascii c in
  if (97 <=? n)%nat && (n <=? 122)%nat then ascii_of_nat (n - 32) else c.

Fixpoint mapChars (f : ascii -> ascii) (s : string) : string :=
  match s with
  | EmptyString => EmptyString
  | String c s' => String (f c) (mapChars f s')
  end.

Definition toLowerCase : string -> string := mapChars lowerChar.
Definition toUpperCase : string -> string := mapChars upperChar.

Fixpoint rev_acc (s acc : string) : string :=
  match s with
  | EmptyString => acc
  | String c s' => rev_acc s' (String c acc)
  end.

Definition reverse (s : string) : string := rev_acc s EmptyString.

Fixpoint trimStart (s : string) : string :=
  match s with
  | String c s' => if isSpace c then trimStart s' else s
  | EmptyString => EmptyString
  end.

Definition trimEnd (s : string) : string := reverse (trimStart (reverse s)).

Definition trim (s : string) : string := trimEnd (trimStart s).

(** [stripPrefix ci p s]: when [p] is a prefix of [s] (letters compared
    without case when [ci]), the rest of [s]. *)
Fixpoint stripPrefix (ci : bool) (p s : string) : option string :=
  match p, s with
  | EmptyString, _ => Some s
  | String a p', String b s' =>
      if Ascii.eqb (if ci then lowerChar a else a) (if ci then lowerChar b else b)
      then stripPrefix ci p' s' else None
  | String _ _, EmptyString => None
  end.

Definition startsWith (p s : string) : bool :=
  match stripPrefix false p s with Some _ => true | None => false end.

Definition endsWith (p s : string) : bool :=
  startsWith (reverse p) (reverse s).

(** [s.includes(p)] *)
Fixpoint includes (p s : string) : bool :=
  if startsWith p s then true
  else match s with
       | EmptyString => false
       | String _ s' => includes p s'
       end.

(** [s.substring(n)] for [n] within the string, the empty string beyond. *)
Fixpoint substringFrom (n : nat) (s : string) : string :=
  match n, s with
  | O, _ => s
  | S n', String _ s' => substringFrom n' s'
  | S _, EmptyString => EmptyString
  end.

(** [s.split(c)] for a one-character separator. *)
Fixpoint splitChar (sep : ascii) (acc : string) (s : string) : list string :=
  match s with
  | EmptyString => [reverse acc]
  | String c s' =>
      if Ascii.eqb c sep then reverse acc :: splitChar sep EmptyString s'
      else splitChar sep (String c acc) s'
  end.

(** [s.replace(/c/g, r)] for a one-character pattern. *)
Fixpoint replaceChar (c : ascii) (r : string) (s : string) : string :=
  match s with
  | EmptyString => EmptyString
  | String d s' =>
      if Ascii.eqb d c then r +:+ replaceChar c r s'
      else String d (replaceChar c r s')
  end.

(** The double quote character, and the one-character string of it. *)
Definition dquote : ascii := ascii_of_nat 34.
Definition DQ : string := String dquote EmptyString.

(** [parts.join(sep)] *)
Fixpoint join (sep : string) (parts : list string) : string :=
  match parts with
  | [] => EmptyString
  | [p] => p
  | p :: rest => p +:+ sep +:+ join sep rest
  end.

(** *** The regular expressions of the parser

    A pattern is a function from the text at a position to the length of the
    match that starts there.  The literals the sources put between the
    white-space runs never start with white space, so the greedy runs have
    no alternative to their longest match. *)

Definition Pattern := string -> option nat.

Fixpoint spanSpace (s : string) : nat * string :=
  match s with
  | String c s' =>
      if isSpace c then let '(n, r) := spanSpace s' in (S n, r) else (O, s)
  | EmptyString => (O, EmptyString)
  end.

(** [\s*lit\s*], case-sensitive. *)
Definition reOp (lit : string) : Pattern := fun s =>
  let '(k, r) := spanSpace s in
  match stripPrefix false lit r with
  | Some r' => let '(t, _) := spanSpace r' in Some (k + String.length lit + t)%nat
  | None => None
  end.

(** [\s+lit\s+] with the [i] flag. *)
Definition reWord (lit : string) : Pattern := fun s =>
  let '(k, r) := spanSpace s in
  match k, stripPrefix true lit r with
  | S _, Some r' =>
      match spanSpace r' with
      | (S t, _) => Some (k + String.length lit + S t)%nat
      | (O, _) => None
      end
  | _, _ => None
  end.

(** [\s+] *)
Definition reSpaces : Pattern := fun s =>
  match spanSpace s with
  | (S k, _) => Some (S k)
  | (O, _) => None
  end.

(** [^where\s+] with the [i] flag, as used by [replace(/^where\s+/i, '')]. *)
Definition stripWhere (s : string) : string :=
  match stripPrefix true "where" s with
  | Some r => match spanSpace r with
              | (S _, r') => r'
              | (O, _) => s
              end
  | None => s
  end.

(** [re.test(s)]: a match starts at some position of [s]. *)
Fixpoint testRe (re : Pattern) (s : string) : bool :=
  match re s with
  | Some _ => true
  | None => match s with
            | EmptyString => false
            | String _ s' => testRe re s'
            end
  end.

(** [s.split(re)] for a pattern without groups that never matches the empty
    string: the pieces between the successive leftmost matches.  [skip]
    counts the characters of the current match still to be passed over. *)
Fixpoint splitRe (re : Pattern) (skip : nat) (acc : string) (s : string)
  : list string :=
  match s with
  | EmptyString => [reverse acc]
  | String c s' =>
      match skip with
      | S k => splitRe re k acc s'
      | O =>
          match re s with
          | Some (S n) => reverse acc :: splitRe re n EmptyString s'
          | _ => splitRe re O (String c acc) s'
          end
      end
  end.

Definition split (re : Pattern) (s : string) : list string :=
  splitRe re O EmptyString s.

(** *** Numbers *)

Definition digitVal (c : ascii) : Z := Z.of_nat (nat_of_ascii c) - 48.

Fixpoint digitsVal (acc : Z) (s : string) : Z :=
  match s with
  | String c s' => if isDigit c then digitsVal (10 * acc + digitVal c) s' else acc
  | EmptyString => acc
  end.

Definition startsWithDigit (s : string) : bool :=
  match s with String c _ => isDigit c | EmptyString => false end.

(** The text after the leading run of digits. *)
Fixpoint trimDigits (s : string) : string :=
  match s with
  | String c s' => if isDigit c then trimDigits s' else s
  | EmptyString => EmptyString
  end.

(** [parseInt(s, 10)]; [None] is NaN.  The value is the exact integer,
    which the double of the source is for a numeral of at most 15 digits. *)
Definition parseInt (s : string) : option Z :=
  match trimStart s with
  | String "-" r => if startsWithDigit r then Some (- digitsVal 0 r) else None
  | String "+" r => if startsWithDigit r then Some (digitsVal 0 r) else None
  | r => if startsWithDigit r then Some (digitsVal 0 r) else None
  end.

(** Decimal text of an integer, as a template literal prints it. *)
Definition ofZ (z : Z) : string := NilEmpty.string_of_int (Z.to_int z).

(** [String(n).padStart(2, '0')] *)
Definition pad2 (z : Z) : string :=
  let s := ofZ z in
  if (String.length s <? 2)%nat then "0" +:+ s else s.

End JsString.


Import JsString.

(* ===================================================================== *)
(** ** Calendar dates of the local clock (JavaScript [Date] at midnight) *)
(* ===================================================================== *)

Module JsDate.

(** Day number of the first day of month [m] (zero-based, any integer) of
    year [y], plus [d - 1]: the [MakeDay] of the language specification,
    counted in days since 1970-01-01. *)
Definition makeDay (y m d : Z) : Z :=
  let y1 := y + m / 12 in
  let m1 := m mod 12 + 1 in
  let y2 := if m1 <=? 2 then y1 - 1 else y1 in
  let era := y2 / 400 in
  let yoe := y2 - era * 400 in
  let doy := (153 * (if 2 <? m1 then m1 - 3 else m1 + 9) + 2) / 5 in
  let doe := yoe * 365 + yoe / 4 - yoe / 100 + doy in
  era * 146097 + doe - 719468 + (d - 1).

(** Year, zero-based month and day of the month of a day number. *)
Definition civil (days : Z) : Z * Z * Z :=
  let z := days + 719468 in
  let era := z / 146097 in
  let doe := z - era * 146097 in
  let yoe := (doe - doe / 1460 + doe / 36524 - doe / 146096) / 365 in
  let doy := doe - (365 * yoe + yoe / 4 - yoe / 100) in
  let mp := (5 * doy + 2) / 153 in
  let d := doy - (153 * mp + 2) / 5 + 1 in
  let m := if mp <? 10 then mp + 3 else mp - 9 in
  let y := yoe + era * 400 + (if m <=? 2 then 1 else 0) in
  (y, m - 1, d).

(** A [Date] holding a local midnight: its day number, or [None] for an
    invalid date (a time value outside the range of 10^8 days around the
    epoch). *)
Definition t := option Z.

Definition timeClip (days : Z) : t :=
  if Z.abs days <=? 100000000 then Some days else None.

Definition getFullYear (dt : Z) : Z := let '(y, _, _) := civil dt in y.
Definition getMonth (dt : Z) : Z := let '(_, m, _) := civil dt in m.
Definition getDate (dt : Z) : Z := let '(_, _, d) := civil dt in d.

(** [dt.setDate(dt.getDate() + k)] *)
Definition addDate (k : Z) (dt : t) : t :=
  match dt with
  | Some n => timeClip (makeDay (getFullYear n) (getMonth n) (getDate n + k))
  | None => None
  end.

(** [dt.setMonth(dt.getMonth() + k)] *)
Definition addMonth (k : Z) (dt : t) : t :=
  match dt with
  | Some n => timeClip (makeDay (getFullYear n) (getMonth n + k) (getDate n))
  | None => None
  end.

(** [dt.setFullYear(dt.getFullYear() + k)] *)
Definition addFullYear (k : Z) (dt : t) : t :=
  match dt with
  | Some n => timeClip (makeDay (getFullYear n + k) (getMonth n) (getDate n))
  | None => None
  end.

End JsDate.

(* ===================================================================== *)
(** ** QueryParser.ts *)
(* ===================================================================== *)

Inductive QueryOperator :=
| EQUALS | NOT_EQUALS | GREATER_THAN | GREATER_THAN_OR_EQUAL
| LESS_THAN | LESS_THAN_OR_EQUAL | CONTAINS | NOT_CONTAINS | IN | NOT_IN.

Inductive BooleanLogic := AND | OR | NOT.

Inductive SortDirection := ASC | DESC.

(** [value: string | string[]] *)
Inductive FilterValue :=
| Scalar (s : string)
| Values (l : list string).

Record FilterCondition := {
  field : string;
  operator : QueryOperator;
  value : FilterValue;
  logic : option BooleanLogic
}.

Record SortCondition := {
  sort_field : string;
  direction : SortDirection
}.

Record ParsedQuery := {
  filters : list FilterCondition;
  sorts : list SortCondition;
  limit : option Z
}.

Module QueryParser.

(** The string of each member of the [QueryOperator] enumeration. *)
Definition opValue (o : QueryOperator) : string :=
  match o with
  | EQUALS => "="
  | NOT_EQUALS => "!="
  | GREATER_THAN => ">"
  | GREATER_THAN_OR_EQUAL => ">="
  | LESS_THAN => "<"
  | LESS_THAN_OR_EQUAL => "<="
  | CONTAINS => "includes"
  | NOT_CONTAINS => "not includes"
  | IN => "in"
  | NOT_IN => "not in"
  end.

(** [Object.entries(QueryOperator)]: the members in declaration order. *)
Definition entries : list QueryOperator :=
  [EQUALS; NOT_EQUALS; GREATER_THAN; GREATER_THAN_OR_EQUAL;
   LESS_THAN; LESS_THAN_OR_EQUAL; CONTAINS; NOT_CONTAINS; IN; NOT_IN].

(** The pattern [parseFilter] builds for an operator: [\s+op\s+] with the
    [i] flag when the operator has a space, [\s*op\s*] otherwise (none of
    the operators has a character that the escaping step would change). *)
Definition opRegex (o : QueryOperator) : Pattern :=
  if includes " " (opValue o) then reWord (opValue o) else reOp (opValue o).

Definition isQuote (c : ascii) : bool :=
  Ascii.eqb c "'" || Ascii.eqb c dquote.

(** [valueStr.replace(/^['"]|['"]$/g, '')] *)
Definition stripQuotes (s : string) : string :=
  let s1 := match s with
            | String c r => if isQuote c then r else s
            | EmptyString => s
            end in
  match reverse s1 with
  | String c r => if isQuote c then reverse r else s1
  | EmptyString => s1
  end.

Definition parseValue (valueStr : string) : FilterValue :=
  let v := stripQuotes valueStr in
  if includes "," v then Values (map trim (splitChar "," EmptyString v))
  else Scalar v.

Fixpoint parseFilterFrom (ops : list QueryOperator) (filterStr : string)
  : option FilterCondition :=
  match ops with
  | [] => None
  | o :: rest =>
      if testRe (opRegex o) filterStr then
        match split (opRegex o) filterStr with
        | [p0; p1] =>
            Some {| field := trim p0; operator := o;
                    value := parseValue (trim p1); logic := None |}
        | _ => parseFilterFrom rest filterStr
        end
      else parseFilterFrom rest filterStr
  end.

Definition parseFilter (filterStr : string) : option FilterCondition :=
  parseFilterFrom entries filterStr.

Definition parseSort (sortStr : string) : option SortCondition :=
  match split reSpaces sortStr with
  | [] => None
  | p0 :: rest =>
      Some {| sort_field := trim p0;
              direction := match rest with
                           | p1 :: _ =>
                               if String.eqb (toLowerCase p1) "desc" then DESC else ASC
                           | [] => ASC
                           end |}
  end.

(** The loop state of [parse]: the query under construction and
    [currentLogic]. *)
Record ParseState := {
  query : ParsedQuery;
  currentLogic : option BooleanLogic
}.

Definition pushFilter (q : ParsedQuery) (f : FilterCondition) (l : option BooleanLogic)
  : ParsedQuery :=
  {| filters := filters q ++
                [{| field := field f; operator := operator f;
                    value := value f; logic := l |}];
     sorts := sorts q; limit := limit q |}.

Definition pushSort (q : ParsedQuery) (s : SortCondition) : ParsedQuery :=
  {| filters := filters q; sorts := sorts q ++ [s]; limit := limit q |}.

Definition setLimit (q : ParsedQuery) (n : Z) : ParsedQuery :=
  {| filters := filters q; sorts := sorts q; limit := Some n |}.

(** The body of the two inline-connective loops: [parts[i]] for
    [i = 0, 1, ...], with [joiner] as the logic of every part but the
    first. *)
Fixpoint pushParts (joiner : BooleanLogic) (first : bool)
    (cur : option BooleanLogic) (parts : list string) (q : ParsedQuery)
  : ParsedQuery :=
  match parts with
  | [] => q
  | part :: rest =>
      let q' := match parseFilter (trim (stripWhere part)) with
                | Some f => pushFilter q f (if first then cur else Some joiner)
                | None => q
                end in
      pushParts joiner false cur rest q'
  end.

(** One iteration of the loop over the lines. *)
Definition parseLine (st : ParseState) (line : string) : ParseState :=
  let lower := toLowerCase line in
  let q := query st in
  if String.eqb lower "tasks" then st
  else if startsWith "where " lower then
    match parseFilter (trim (substringFrom 6 line)) with
    | Some f => {| query := pushFilter q f (currentLogic st); currentLogic := None |}
    | None => st
    end
  else if String.eqb lower "and" then {| query := q; currentLogic := Some AND |}
  else if String.eqb lower "or" then {| query := q; currentLogic := Some OR |}
  else if String.eqb lower "not" then {| query := q; currentLogic := Some NOT |}
  else if includes " and " lower then
    {| query := pushParts AND true (currentLogic st) (split (reWord "and") line) q;
       currentLogic := None |}
  else if includes " or " lower then
    {| query := pushParts OR true (currentLogic st) (split (reWord "or") line) q;
       currentLogic := None |}
  else if startsWith "sort by " lower then
    match parseSort (trim (substringFrom 8 line)) with
    | Some s => {| query := pushSort q s; currentLogic := currentLogic st |}
    | None => st
    end
  else if startsWith "limit " lower then
    match parseInt (trim (substringFrom 6 line)) with
    | Some n => {| query := setLimit q n; currentLogic := currentLogic st |}
    | None => st
    end
  else st.

(** The lines [parse] iterates over: split at LF, trimmed, without the
    empty lines and the comment lines. *)
Definition queryLines (queryString : string) : list string :=
  List.filter
    (fun line => negb (String.eqb line EmptyString) && negb (startsWith "#" line))
    (map trim (splitChar "010" EmptyString queryString)).

Definition parse (queryString : string) : ParsedQuery :=
  query (fold_left parseLine (queryLines queryString)
           {| query := {| filters := []; sorts := []; limit := None |};
              currentLogic := None |}).

(** [aliases[field.toLowerCase()] || field].  The table is an object
    literal, so the two lower-case names it inherits from
    [Object.prototype] are found as well and yield a value that is not a
    string: [None]. *)
Definition normalizeFieldName (fld : string) : option string :=
  let k := toLowerCase fld in
  if String.eqb k "due" then Some "due_date"
  else if String.eqb k "scheduled" then Some "scheduled_date"
  else if String.eqb k "start" then Some "start_date"
  else if String.eqb k "done" then Some "done_date"
  else if String.eqb k "cancelled" then Some "cancelled_date"
  else if String.eqb k "tag" then Some "tags"
  else if String.eqb k "depends" then Some "depends_on"
  else if String.eqb k "constructor" || String.eqb k "__proto__" then None
  else Some fld.

(** [formatDate]: [YYYY-MM-DD], the year as the number prints. *)
Definition formatDate (dt : JsDate.t) : string :=
  match dt with
  | Some n =>
      ofZ (JsDate.getFullYear n) +:+ "-" +:+ pad2 (JsDate.getMonth n + 1)
        +:+ "-" +:+ pad2 (JsDate.getDate n)
  | None => "NaN-NaN-NaN"
  end.

Inductive RelBase := Today | Tomorrow | Yesterday.

(** After the base word: [\s*([+\-])\s*(\d+)([dwmy])$] with the [i] flag;
    the sign ([true] for minus), the amount and the lower-case unit. *)
Definition matchOffset (s : string) : option (bool * Z * ascii) :=
  let '(_, r) := spanSpace s in
  match r with
  | String sg r1 =>
      if Ascii.eqb sg "+" || Ascii.eqb sg "-" then
        let '(_, r2) := spanSpace r1 in
        if startsWithDigit r2 then
          match trimDigits r2 with
          | String u EmptyString =>
              let u' := lowerChar u in
              if Ascii.eqb u' "d" || Ascii.eqb u' "w" || Ascii.eqb u' "m"
                 || Ascii.eqb u' "y"
              then Some (Ascii.eqb sg "-", digitsVal 0 r2, u') else None
          | _ => None
          end
        else None
      else None
  | EmptyString => None
  end.

(** [/^(today|tomorrow|yesterday)\s*([+\-])\s*(\d+)([dwmy])$/i] *)
Definition relativeMatch (dateStr : string) : option (RelBase * bool * Z * ascii) :=
  let try (w : string) (b : RelBase) :=
    match stripPrefix true w dateStr with
    | Some r => match matchOffset r with
                | Some (sg, n, u) => Some (b, sg, n, u)
                | None => None
                end
    | None => None
    end in
  match try "today" Today with
  | Some m => Some m
  | None => match try "tomorrow" Tomorrow with
            | Some m => Some m
            | None => try "yesterday" Yesterday
            end
  end.

(** [parseQueryDate]; [today] is the local date of the evaluation clock at
    midnight ([new Date()] after [setHours(0, 0, 0, 0)]). *)
Definition parseQueryDate (today : Z) (dateStr : string) : string :=
  match relativeMatch dateStr with
  | Some (b, minus, amount, unit) =>
      let baseDate :=
        match b with
        | Tomorrow => JsDate.addDate 1 (Some today)
        | Yesterday => JsDate.addDate (-1) (Some today)
        | Today => Some today
        end in
      let offset := amount * (if minus then -1 else 1) in
      formatDate
        (if Ascii.eqb unit "d" then JsDate.addDate offset baseDate
         else if Ascii.eqb unit "w" then JsDate.addDate (offset * 7) baseDate
         else if Ascii.eqb unit "m" then JsDate.addMonth offset baseDate
         else JsDate.addFullYear offset baseDate)
  | None =>
      let lower := toLowerCase dateStr in
      if String.eqb lower "today" then formatDate (Some today)
      else if String.eqb lower "tomorrow" then formatDate (JsDate.addDate 1 (Some today))
      else if String.eqb lower "yesterday" then formatDate (JsDate.addDate (-1) (Some today))
      else dateStr
  end.

End QueryParser.

(* ===================================================================== *)
(** ** QueryOptimizer.ts *)
(* ===================================================================== *)

Record QueryOptimizationSettings := {
  maxExecutionTime : Z;
  maxResults : Z;
  enableCache : bool;
  cacheTimeoutSetting : Z
}.

Definition DEFAULT_OPTIMIZATION_SETTINGS : QueryOptimizationSettings :=
  {| maxExecutionTime := 5000; maxResults := 1000;
     enableCache := true; cacheTimeoutSetting := 60000 |}.

(** [{ valid: boolean; error?: string }] *)
Record Validation := {
  valid : bool;
  error : option string
}.

Module QueryOptimizer.

(** [!query.limit]: the limit is missing or zero. *)
Definition noLimit (l : option Z) : bool :=
  match l with
  | None => true
  | Some n => n =? 0
  end.

Definition optimize (settings : QueryOptimizationSettings) (q : ParsedQuery)
  : ParsedQuery :=
  let over := match limit q with
              | Some n => maxResults settings <? n
              | None => false
              end in
  if noLimit (limit q) || over
  then {| filters := filters q; sorts := sorts q;
          limit := Some (maxResults settings) |}
  else q.

(** [Array.isArray(filter.value) && filter.value.length > 100] *)
Definition tooManyValues (f : FilterCondition) : bool :=
  match value f with
  | Values l => (100 <? length l)%nat
  | Scalar _ => false
  end.

Definition validateQuery (q : ParsedQuery) : Validation :=
  if (length (filters q) =? 0)%nat && noLimit (limit q) then
    {| valid := false;
       error := Some "Query without filters must have a limit to prevent performance issues" |}
  else if existsb tooManyValues (filters q) then
    {| valid := false;
       error := Some "Filter with more than 100 values may cause performance issues" |}
  else {| valid := true; error := None |}.

End QueryOptimizer.

(* ===================================================================== *)
(** ** TaskData.ts: hydration of block attributes *)
(* ===================================================================== *)

(** The values [JSON.parse] returns. *)
Inductive Json :=
| JNull
| JBool (b : bool)
| JNum (n : Z)
| JStr (s : string)
| JArr (l : list Json)
| JObj (l : list (string * Json)).

Record TaskData := {
  task_id : string;
  status : string;
  status_symbol : string;
  due_date : option string;
  scheduled_date : option string;
  start_date : option string;
  done_date : option string;
  cancelled_date : option string;
  priority : option Z;
  recurrence_rule : option string;
  base_on_completion : bool;
  next_due : option string;
  last_completed : option string;
  tags : Json;
  description : string;
  depends_on : Json;
  id_for_deps : option string;
  source_block_id : string;
  created_at : string;
  updated_at : string
}.

(** A row of the [blocks] table, as far as the engine and its statements
    refer to it. *)
Record BlockRow := {
  id : string;
  content : string;
  created : string;
  ial : string
}.

Inductive Failure :=
| TypeError           (* a member access on a value that has no such member *)
| RecordSourceFailure (* the record source answered with an error *)
| QueryTimeout.       (* the deadline of [executeWithTimeout] was lost *)

Inductive Outcome (A : Type) :=
| Ok (a : A)
| Err (e : Failure).
Arguments Ok {A} a.
Arguments Err {A} e.

(** A call that reaches the record source. *)
Inductive Call :=
| SqlCall (sql : string)
| AttrsCall (blockId : string).

(** The host of the engine: the clock, the record source behind
    [SiYuanAPI] and [JSON.parse].  [Env] is the state of everything outside
    the engine; a call to the record source may change it.  An answer
    [None] is a rejected promise ([JSON_parse]: a [SyntaxError]). *)
Class Host (Env : Type) := {
  now : Env -> Z;                 (* Date.now() *)
  isoNow : Env -> string;         (* new Date().toISOString() *)
  today : Env -> Z;               (* local day number of new Date() *)
  querySQL : string -> Env -> option (list BlockRow) * Env;
  getBlockAttrs : string -> Env -> option (gmap string string) * Env;
  JSON_parse : string -> option Json
}.

(** [x || d] on an optional string: absent and empty are falsy. *)
Definition orDefault (x : option string) (d : string) : string :=
  match x with
  | Some s => if String.eqb s EmptyString then d else s
  | None => d
  end.

Definition truthy (x : option string) : bool :=
  match x with
  | Some s => negb (String.eqb s EmptyString)
  | None => false
  end.

(** The result of [blockAttributesToTaskData]: an exception, [null] or a
    task. *)
Inductive Hydrated :=
| Threw
| Null
| Task (t : TaskData).

Section Hydration.
Context {Env : Type} `{Host Env}.

(** [attrs[k] ? JSON.parse(attrs[k]) : []] *)
Definition parseList (x : option string) : option Json :=
  match x with
  | Some s => if String.eqb s EmptyString then Some (JArr []) else JSON_parse s
  | None => Some (JArr [])
  end.

Definition blockAttributesToTaskData (env : Env) (blockId : string)
    (attrs : gmap string string) : Hydrated :=
  if negb (truthy (attrs !! "custom-task-id"))
     || negb (truthy (attrs !! "custom-task-description"))
  then Null
  else
    match parseList (attrs !! "custom-task-tags"),
          parseList (attrs !! "custom-task-depends-on") with
    | Some tgs, Some deps =>
        Task {|
          task_id := orDefault (attrs !! "custom-task-id") EmptyString;
          status := orDefault (attrs !! "custom-task-status") "TODO";
          status_symbol := orDefault (attrs !! "custom-task-symbol") "[ ]";
          due_date := attrs !! "custom-task-due";
          scheduled_date := attrs !! "custom-task-scheduled";
          start_date := attrs !! "custom-task-start";
          done_date := attrs !! "custom-task-done";
          cancelled_date := attrs !! "custom-task-cancelled";
          priority := parseInt (orDefault (attrs !! "custom-task-priority") "6");
          recurrence_rule := attrs !! "custom-task-recurrence";
          base_on_completion :=
            match attrs !! "custom-task-base-on-completion" with
            | Some s => String.eqb s "true"
            | None => false
            end;
          next_due := attrs !! "custom-task-next-due";
          last_completed := attrs !! "custom-task-last-completed";
          tags := tgs;
          description := orDefault (attrs !! "custom-task-description") EmptyString;
          depends_on := deps;
          id_for_deps := attrs !! "custom-task-id-for-deps";
          source_block_id := blockId;
          created_at := orDefault (attrs !! "custom-task-created-at") (isoNow env);
          updated_at := orDefault (attrs !! "custom-task-updated-at") (isoNow env)
        |}
    | _, _ => Threw
    end.

End Hydration.

(* ===================================================================== *)
(** ** QueryEngine.ts *)
(* ===================================================================== *)

Record CacheEntry := {
  result : list TaskData;
  timestamp : Z
}.

Record QueryEngine := {
  queryCache : gmap string CacheEntry;
  cacheTimeout : Z
}.

Module Engine.

(** [new QueryEngine(api)] *)
Definition create : QueryEngine :=
  {| queryCache := ∅; cacheTimeout := 60000 |}.

Definition clearCache (eng : QueryEngine) : QueryEngine :=
  {| queryCache := ∅; cacheTimeout := cacheTimeout eng |}.

Definition setCacheTimeout (timeout : Z) (eng : QueryEngine) : QueryEngine :=
  {| queryCache := queryCache eng; cacheTimeout := timeout |}.

(** [Array.isArray(filter.value) ? filter.value[0] : filter.value];
    [None] is the [undefined] first element of an empty array, on which
    every use below raises a [TypeError]. *)
Definition firstValue (f : FilterCondition) : option string :=
  match value f with
  | Scalar s => Some s
  | Values l => head l
  end.

Definition escapeSQL (v : string) : string :=
  replaceChar "_" "\_"
    (replaceChar "%" "\%"
       (replaceChar "'" "''"
          (replaceChar "\" "\\" v))).

Definition like (pattern : string) : string :=
  "(ial LIKE '%" +:+ pattern +:+ "%')".

Definition notLike (pattern : string) : string :=
  "(ial NOT LIKE '%" +:+ pattern +:+ "%')".

Definition quoted (v : string) : string := "=" +:+ DQ +:+ v +:+ DQ.

Definition quotedPart (v : string) : string :=
  "=" +:+ DQ +:+ "%" +:+ v +:+ "%" +:+ DQ.

Definition buildStatusFilter (f : FilterCondition) : option string :=
  match firstValue f with
  | None => None
  | Some statusValue =>
      let statusUpper := toUpperCase statusValue in
      Some match operator f with
           | EQUALS => like ("custom-task-status" +:+ quoted statusUpper)
           | NOT_EQUALS => notLike ("custom-task-status" +:+ quoted statusUpper)
           | _ => like "custom-task-status"
           end
  end.

(** [tagValue.replace(/^#/, '')] *)
Definition cleanHash (s : string) : string :=
  match s with
  | String "#" r => r
  | _ => s
  end.

Definition buildTagsFilter (f : FilterCondition) : option string :=
  match firstValue f with
  | None => None
  | Some tagValue =>
      let cleanTag := cleanHash tagValue in
      Some match operator f with
           | CONTAINS | IN =>
               like ("custom-task-tags" +:+ quotedPart (escapeSQL cleanTag))
           | NOT_CONTAINS | NOT_IN =>
               notLike ("custom-task-tags" +:+ quotedPart (escapeSQL cleanTag))
           | _ => like "custom-task-tags"
           end
  end.

Definition buildDateFilter (clock : Z) (attrName : string) (f : FilterCondition)
  : option string :=
  match firstValue f with
  | None => None
  | Some dateValue =>
      let parsedDate := QueryParser.parseQueryDate clock dateValue in
      Some match operator f with
           | EQUALS => like (attrName +:+ quoted parsedDate)
           | NOT_EQUALS => notLike (attrName +:+ quoted parsedDate)
           | LESS_THAN | LESS_THAN_OR_EQUAL => like attrName
           | GREATER_THAN | GREATER_THAN_OR_EQUAL => like attrName
           | _ => like attrName
           end
  end.

(** The standard attribute filter: the value is only touched (and only
    then can raise) in the four cases that escape it. *)
Definition buildAttrFilter (attrName : string) (f : FilterCondition)
  : option string :=
  let esc := option_map escapeSQL (firstValue f) in
  match operator f with
  | EQUALS => option_map (fun v => like (attrName +:+ quoted v)) esc
  | NOT_EQUALS => option_map (fun v => notLike (attrName +:+ quoted v)) esc
  | CONTAINS => option_map (fun v => like (attrName +:+ quotedPart v)) esc
  | NOT_CONTAINS => option_map (fun v => notLike (attrName +:+ quotedPart v)) esc
  | _ => Some (like attrName)
  end.

Definition buildFilterClause (clock : Z) (f : FilterCondition) : option string :=
  match QueryParser.normalizeFieldName (field f) with
  | None => None
  | Some fld =>
      let attrName := "custom-task-" +:+ replaceChar "_" "-" fld in
      if String.eqb fld "status" then buildStatusFilter f
      else if String.eqb fld "tags" then buildTagsFilter f
      else if endsWith "_date" fld then buildDateFilter clock attrName f
      else buildAttrFilter attrName f
  end.

(** The connective pushed before the clause of filter [i]; [first] says
    [i = 0]. *)
Definition connective (first : bool) (l : option BooleanLogic) : list string :=
  match first, l with
  | true, None => ["AND"]
  | _, Some AND => ["AND"]
  | _, Some OR => ["OR"]
  | _, Some NOT => ["AND NOT"]
  | false, None => ["AND"]
  end.

Fixpoint buildFilterClauses (clock : Z) (first : bool) (fs : list FilterCondition)
  : option (list string) :=
  match fs with
  | [] => Some []
  | f :: rest =>
      match buildFilterClause clock f with
      | None => None
      | Some clause =>
          match buildFilterClauses clock false rest with
          | None => None
          | Some more => Some (connective first (logic f) ++ clause :: more)
          end
      end
  end.

Definition buildWhereClauses (clock : Z) (fs : list FilterCondition)
  : option (list string) :=
  option_map (cons "(ial LIKE '%custom-task-id%')")
    (buildFilterClauses clock true fs).

Definition buildSortClause (s : SortCondition) : string :=
  let direction := match direction s with DESC => "DESC" | ASC => "ASC" end in
  match QueryParser.normalizeFieldName (sort_field s) with
  | Some fld =>
      if String.eqb fld "description" then "content " +:+ direction
      else "created " +:+ direction
  | None => "created " +:+ direction
  end.

(** [if (query.limit)]: a missing and a zero limit add no clause. *)
Definition limitPart (l : option Z) : list string :=
  match l with
  | Some n => if n =? 0 then [] else ["LIMIT " +:+ ofZ n]
  | None => []
  end.

Definition compileToSQL (clock : Z) (q : ParsedQuery) : option string :=
  match buildWhereClauses clock (filters q) with
  | None => None
  | Some whereClauses =>
      Some (join " "
        (["SELECT * FROM blocks"]
         ++ (if (0 <? length whereClauses)%nat
             then ["WHERE " +:+ join " " whereClauses] else [])
         ++ (if (0 <? length (sorts q))%nat
             then ["ORDER BY " +:+ join ", " (map buildSortClause (sorts q))] else [])
         ++ limitPart (limit q)))
  end.

Section WithHost.
Context {Env : Type} `{Host Env}.

(** [resultsToTasks]: one hydration call per row; a row whose call fails,
    whose conversion raises or whose conversion is [null] is left out. *)
Fixpoint resultsToTasks (results : list BlockRow) (env : Env)
  : list TaskData * Env * list Call :=
  match results with
  | [] => ([], env, [])
  | r :: rest =>
      let '(answer, env1) := getBlockAttrs (id r) env in
      let kept :=
        match answer with
        | Some attrs =>
            match blockAttributesToTaskData env1 (id r) attrs with
            | Task t => [t]
            | Null | Threw => []
            end
        | None => []
        end in
      let '(tasks, env2, calls) := resultsToTasks rest env1 in
      (kept ++ tasks, env2, AttrsCall (id r) :: calls)
  end.

(** The cache read of [executeQuery]: the cached result when an entry
    exists and [Date.now() - cached.timestamp < this.cacheTimeout]. *)
Definition cacheRead (eng : QueryEngine) (queryString : string) (env : Env)
  : option (list TaskData) :=
  match queryCache eng !! queryString with
  | Some cached =>
      if now env - timestamp cached <? cacheTimeout eng
      then Some (result cached) else None
  | None => None
  end.

(** [executeQuery(queryString, useCache)]: the outcome, the engine and the
    environment afterwards, and the calls made to the record source. *)
Definition executeQuery (eng : QueryEngine) (queryString : string)
    (useCache : bool) (env : Env)
  : Outcome (list TaskData) * QueryEngine * Env * list Call :=
  match (if useCache then cacheRead eng queryString env else None) with
  | Some cachedResult => (Ok cachedResult, eng, env, [])
  | None =>
      let query := QueryParser.parse queryString in
      match compileToSQL (today env) query with
      | None => (Err TypeError, eng, env, [])
      | Some sql =>
          match querySQL sql env with
          | (None, env1) => (Err RecordSourceFailure, eng, env1, [SqlCall sql])
          | (Some results, env1) =>
              let '(tasks, env2, calls) := resultsToTasks results env1 in
              (Ok tasks,
               {| queryCache :=
                    <[queryString := {| result := tasks; timestamp := now env2 |}]>
                      (queryCache eng);
                  cacheTimeout := cacheTimeout eng |},
               env2, SqlCall sql :: calls)
          end
      end
  end.

End WithHost.

End Engine.

(* ===================================================================== *)
(** ** GlobalFilterService.ts and the query path of the plugin *)
(* ===================================================================== *)

Record GlobalFilterSettings := {
  excludedNotebooks : list string;
  excludedPaths : list string;
  excludedTags : list string;
  includedTags : list string;
  defaultConditions : string
}.

Module GlobalFilterService.

(** Line terminators, which the [.] of a regular expression skips. *)
Definition isLineTerminator (c : ascii) : bool :=
  Ascii.eqb c "010" || Ascii.eqb c "013".

(** The test of [new RegExp('^' + pattern' + '$', 'i')], where [pattern']
    is the glob with [*] turned into [.*], [?] into [.] and every other
    special character escaped. *)
Fixpoint globMatch (p : string) : string -> bool :=
  match p with
  | EmptyString => fun s => String.eqb s EmptyString
  | String c p' =>
      if Ascii.eqb c "*" then
        fix star (s : string) : bool :=
          globMatch p' s
          || match s with
             | String d s' => negb (isLineTerminator d) && star s'
             | EmptyString => false
             end
      else fun s =>
        match s with
        | String d s' =>
            (if Ascii.eqb c "?" then negb (isLineTerminator d)
             else Ascii.eqb (lowerChar c) (lowerChar d))
            && globMatch p' s'
        | EmptyString => false
        end
  end.

(** [matchesTag(tag, pattern)]; a tag that is not a string has no
    [replace] member. *)
Definition matchesTag (tag : Json) (pattern : string) : option bool :=
  match tag with
  | JStr t => Some (globMatch (Engine.cleanHash pattern) (Engine.cleanHash t))
  | _ => None
  end.

(** [patterns.some(p => matchesTag(tag, p))] *)
Fixpoint somePattern (tag : Json) (patterns : list string) : option bool :=
  match patterns with
  | [] => Some false
  | p :: rest =>
      match matchesTag tag p with
      | Some true => Some true
      | Some false => somePattern tag rest
      | None => None
      end
  end.

(** [task.tags.some(tag => patterns.some(...))]; only an array has [some]. *)
Fixpoint someTagIn (tgs : list Json) (patterns : list string) : option bool :=
  match tgs with
  | [] => Some false
  | t :: rest =>
      match somePattern t patterns with
      | Some true => Some true
      | Some false => someTagIn rest patterns
      | None => None
      end
  end.

Definition someTag (tgs : Json) (patterns : list string) : option bool :=
  match tgs with
  | JArr l => someTagIn l patterns
  | _ => None
  end.

Definition passesFilters (settings : GlobalFilterSettings) (task : TaskData)
  : option bool :=
  match (if (0 <? length (excludedTags settings))%nat
         then someTag (tags task) (excludedTags settings) else Some false) with
  | None => None
  | Some true => Some false
  | Some false =>
      if (0 <? length (includedTags settings))%nat
      then someTag (tags task) (includedTags settings)
      else Some true
  end.

Fixpoint filterTasks (settings : GlobalFilterSettings) (tasks : list TaskData)
  : option (list TaskData) :=
  match tasks with
  | [] => Some []
  | t :: rest =>
      match passesFilters settings t with
      | None => None
      | Some keep =>
          option_map (fun more => if keep then t :: more else more)
            (filterTasks settings rest)
      end
  end.

Definition appendToQuery (settings : GlobalFilterSettings) (queryString : string)
  : string :=
  let conditions := trim (defaultConditions settings) in
  if String.eqb conditions EmptyString then queryString
  else if includes "where" (toLowerCase queryString)
  then queryString +:+ String "010" "and " +:+ conditions
  else queryString +:+ String "010" "where " +:+ conditions.

End GlobalFilterService.

Record SiYuanTasksPlugin := {
  queryEngine : QueryEngine;
  queryOptimizer : QueryOptimizationSettings;
  globalFilterService : GlobalFilterSettings
}.

Module Plugin.

(** [executeWithTimeout(fn)]: [fn] is started at once and raced against
    the timer.  The race itself is a matter of real time; [deadlineLost]
    says that the timer won.  Whatever [fn] does to the engine and to the
    record source happens in both cases. *)
Definition executeWithTimeout {A : Type} (deadlineLost : bool) (fn : Outcome A)
  : Outcome A :=
  if deadlineLost then Err QueryTimeout else fn.

Section WithHost.
Context {Env : Type} `{Host Env}.

Definition handleQueryExecute (p : SiYuanTasksPlugin) (query : string)
    (deadlineLost : bool) (env : Env)
  : Outcome (list TaskData) * SiYuanTasksPlugin * Env * list Call :=
  let filteredQuery :=
    GlobalFilterService.appendToQuery (globalFilterService p) query in
  let '(answer, eng, env', calls) :=
    Engine.executeQuery (queryEngine p) filteredQuery true env in
  let p' := {| queryEngine := eng; queryOptimizer := queryOptimizer p;
               globalFilterService := globalFilterService p |} in
  match executeWithTimeout deadlineLost answer with
  | Ok tasks =>
      match GlobalFilterService.filterTasks (globalFilterService p) tasks with
      | Some kept => (Ok kept, p', env', calls)
      | None => (Err TypeError, p', env', calls)
      end
  | Err e => (Err e, p', env', calls)
  end.

End WithHost.

End Plugin.

(* ===================================================================== *)
(** ** An in-memory record source

    The record source is the SiYuan kernel, outside this repository.  The
    closed examples below run the engine against this stand-in: a list of
    blocks with their attributes, a narrowing operation that evaluates the
    statements [compileToSQL] emits the way SQLite reads them (LIKE without
    an ESCAPE clause and without regard to ASCII case, NOT above AND above
    OR, ORDER BY on the text columns in byte order, a negative LIMIT as no
    limit), a hydration operation that looks the block up, and a counter of
    the calls received.  Every property stated for all hosts is independent
    of it. *)
(* ===================================================================== *)

Module InMemorySource.

Record Block := {
  block_id : string;
  block_content : string;
  block_created : string;
  block_attrs : list (string * string)
}.

(** The inline attribute list of a block as the [ial] column holds it. *)
Definition ialOf (attrs : list (string * string)) : string :=
  "{:" +:+ String.concat EmptyString
             (map (fun '(k, v) => " " +:+ k +:+ "=" +:+ DQ +:+ v +:+ DQ) attrs)
       +:+ "}".

Definition rowOf (b : Block) : BlockRow :=
  {| id := block_id b; content := block_content b;
     created := block_created b; ial := ialOf (block_attrs b) |}.

Record World := {
  blocks : list Block;
  clock_ms : Z;
  clock_day : Z;
  clock_iso : string;
  sql_calls : nat;
  attr_calls : nat
}.

(** *** Reading the statements *)

(** The text of a string literal up to its closing quote, a doubled quote
    standing for one, and the text after it. *)
Fixpoint readLiteral (s : string) : option (string * string) :=
  match s with
  | EmptyString => None
  | String "'" (String "'" r) =>
      option_map (fun '(lit, rest) => (String "'" lit, rest)) (readLiteral r)
  | String "'" r => Some (EmptyString, r)
  | String c r =>
      option_map (fun '(lit, rest) => (String c lit, rest)) (readLiteral r)
  end.

(** A clause [(ial LIKE '...')] or [(ial NOT LIKE '...')]: whether it is
    negated, its pattern and the text after it. *)
Definition readClause (s : string) : option (bool * string * string) :=
  let body (neg : bool) (r : string) :=
    match readLiteral r with
    | Some (lit, r1) =>
        match stripPrefix false ")" r1 with
        | Some r2 => Some (neg, lit, r2)
        | None => None
        end
    | None => None
    end in
  match stripPrefix false "(ial LIKE '" s with
  | Some r => body false r
  | None =>
      match stripPrefix false "(ial NOT LIKE '" s with
      | Some r => body true r
      | None => None
      end
  end.

Inductive Connective := ConnAnd | ConnOr.

(** A condition of the WHERE part: how it joins what precedes it, whether
    it is negated (by NOT LIKE or by a preceding NOT, which cancel) and
    the LIKE pattern. *)
Definition Condition : Type := Connective * bool * string.

Definition readConnective (s : string) : option (Connective * bool * string) :=
  match stripPrefix false " AND NOT " s with
  | Some r => Some (ConnAnd, true, r)
  | None =>
      match stripPrefix false " AND " s with
      | Some r => Some (ConnAnd, false, r)
      | None =>
          match stripPrefix false " OR " s with
          | Some r => Some (ConnOr, false, r)
          | None => None
          end
      end
  end.

(** The conditions after the first, as many as follow. *)
Fixpoint readConditions (fuel : nat) (s : string) : list Condition * string :=
  match fuel with
  | O => ([], s)
  | S fuel' =>
      match readConnective s with
      | Some (conn, neg, r) =>
          match readClause r with
          | Some (neg', pat, r') =>
              let '(more, rest) := readConditions fuel' r' in
              ((conn, xorb neg neg', pat) :: more, rest)
          | None => ([], s)
          end
      | None => ([], s)
      end
  end.

Definition readWhere (s : string) : option (list Condition * string) :=
  match stripPrefix false " WHERE " s with
  | Some r =>
      match readClause r with
      | Some (neg, pat, r') =>
          let '(more, rest) := readConditions (String.length r') r' in
          Some ((ConnAnd, neg, pat) :: more, rest)
      | None => None
      end
  | None => Some ([], s)
  end.

Inductive Column := ColContent | ColCreated.

Definition SortTerm : Type := Column * bool.

Definition readTerm (s : string) : option (SortTerm * string) :=
  let dir (c : Column) (r : string) :=
    match stripPrefix false "ASC" r with
    | Some r' => Some ((c, false), r')
    | None =>
        match stripPrefix false "DESC" r with
        | Some r' => Some ((c, true), r')
        | None => None
        end
    end in
  match stripPrefix false "content " s with
  | Some r => dir ColContent r
  | None =>
      match stripPrefix false "created " s with
      | Some r => dir ColCreated r
      | None => None
      end
  end.

Fixpoint readTerms (fuel : nat) (s : string) : list SortTerm * string :=
  match fuel with
  | O => ([], s)
  | S fuel' =>
      match stripPrefix false ", " s with
      | Some r =>
          match readTerm r with
          | Some (t, r') =>
              let '(more, rest) := readTerms fuel' r' in (t :: more, rest)
          | None => ([], s)
          end
      | None => ([], s)
      end
  end.

Definition readOrderBy (s : string) : option (list SortTerm * string) :=
  match stripPrefix false " ORDER BY " s with
  | Some r =>
      match readTerm r with
      | Some (t, r') =>
          let '(more, rest) := readTerms (String.length r') r' in
          Some (t :: more, rest)
      | None => None
      end
  | None => Some ([], s)
  end.

(** The LIMIT part, which ends the statement. *)
Definition readLimit (s : string) : option (option Z) :=
  if String.eqb s EmptyString then Some None
  else match stripPrefix false " LIMIT " s with
       | Some r =>
           match parseInt r with
           | Some n => if String.eqb (ofZ n) r then Some (Some n) else None
           | None => None
           end
       | None => None
       end.

Record Statement := {
  st_where : list Condition;
  st_order : list SortTerm;
  st_limit : option Z
}.

Definition readStatement (sql : string) : option Statement :=
  match stripPrefix false "SELECT * FROM blocks" sql with
  | None => None
  | Some r0 =>
      match readWhere r0 with
      | None => None
      | Some (conds, r1) =>
          match readOrderBy r1 with
          | None => None
          | Some (terms, r2) =>
              match readLimit r2 with
              | None => None
              | Some lim =>
                  Some {| st_where := conds; st_order := terms; st_limit := lim |}
              end
          end
      end
  end.

(** *** Evaluating them *)

(** LIKE: [%] stands for any text, [_] for any one character, the letters
    match without regard to case. *)
Fixpoint likeMatch (p : string) : string -> bool :=
  match p with
  | EmptyString => fun s => String.eqb s EmptyString
  | String c p' =>
      if Ascii.eqb c "%" then
        fix any (s : string) : bool :=
          likeMatch p' s
          || match s with
             | String _ s' => any s'
             | EmptyString => false
             end
      else fun s =>
        match s with
        | String d s' =>
            (Ascii.eqb c "_" || Ascii.eqb (lowerChar c) (lowerChar d))
            && likeMatch p' s'
        | EmptyString => false
        end
  end.

(** AND binds tighter than OR: the conditions up to the next OR form one
    conjunction. *)
Fixpoint holds (text : string) (acc : bool) (conds : list Condition) : bool :=
  match conds with
  | [] => acc
  | (ConnAnd, neg, pat) :: rest =>
      holds text (acc && xorb neg (likeMatch pat text)) rest
  | (ConnOr, neg, pat) :: rest =>
      acc || holds text (xorb neg (likeMatch pat text)) rest
  end.

Definition column (c : Column) (r : BlockRow) : string :=
  match c with
  | ColContent => content r
  | ColCreated => created r
  end.

(** [r1] may stay before [r2] under the ORDER BY terms. *)
Fixpoint inOrder (terms : list SortTerm) (r1 r2 : BlockRow) : bool :=
  match terms with
  | [] => true
  | (c, desc) :: rest =>
      match String.compare (column c r1) (column c r2) with
      | Eq => inOrder rest r1 r2
      | Lt => negb desc
      | Gt => desc
      end
  end.

Fixpoint insertRow (terms : list SortTerm) (r : BlockRow) (sorted : list BlockRow)
  : list BlockRow :=
  match sorted with
  | [] => [r]
  | x :: rest =>
      if inOrder terms r x then r :: sorted
      else x :: insertRow terms r rest
  end.

(** A stable sort: rows that compare equal keep their order. *)
Definition orderRows (terms : list SortTerm) (rows : list BlockRow) : list BlockRow :=
  fold_right (insertRow terms) [] rows.

Definition limitRows (lim : option Z) (rows : list BlockRow) : list BlockRow :=
  match lim with
  | Some n => if n <? 0 then rows else firstn (Z.to_nat n) rows
  | None => rows
  end.

Definition runStatement (st : Statement) (bs : list Block) : list BlockRow :=
  limitRows (st_limit st)
    (orderRows (st_order st)
       (List.filter (fun r => holds (ial r) true (st_where st)) (map rowOf bs))).

(** *** [JSON.parse] on what [JSON.stringify] writes for a list of plain
    strings; any other text is refused. *)
Fixpoint readPlain (s : string) : option (string * string) :=
  match s with
  | EmptyString => None
  | String c r =>
      if Ascii.eqb c dquote then Some (EmptyString, r)
      else if Ascii.eqb c "\" then None
      else option_map (fun '(lit, rest) => (String c lit, rest)) (readPlain r)
  end.

Fixpoint readItems (fuel : nat) (s : string) : option (list Json) :=
  match fuel with
  | O => None
  | S fuel' =>
      match s with
      | String c r =>
          if Ascii.eqb c dquote then
            match readPlain r with
            | Some (lit, String "," r') =>
                option_map (cons (JStr lit)) (readItems fuel' r')
            | Some (lit, "]"%string) => Some [JStr lit]
            | _ => None
            end
          else None
      | EmptyString => None
      end
  end.

Definition parseStrings (s : string) : option Json :=
  if String.eqb s "[]" then Some (JArr [])
  else match s with
       | String "[" r => option_map JArr (readItems (String.length r) r)
       | _ => None
       end.

(** *** The host *)

Definition tick_sql (w : World) : World :=
  {| blocks := blocks w; clock_ms := clock_ms w; clock_day := clock_day w;
     clock_iso := clock_iso w; sql_calls := S (sql_calls w);
     attr_calls := attr_calls w |}.

Definition tick_attr (w : World) : World :=
  {| blocks := blocks w; clock_ms := clock_ms w; clock_day := clock_day w;
     clock_iso := clock_iso w; sql_calls := sql_calls w;
     attr_calls := S (attr_calls w) |}.

Definition lookupBlock (blockId : string) (bs : list Block) : option Block :=
  find (fun b => String.eqb (block_id b) blockId) bs.

#[global] Instance host : Host World := {|
  now := clock_ms;
  isoNow := clock_iso;
  today := clock_day;
  querySQL := fun sql w =>
    (option_map (fun st => runStatement st (blocks w)) (readStatement sql),
     tick_sql w);
  getBlockAttrs := fun blockId w =>
    (option_map (fun b => list_to_map (block_attrs b)) (lookupBlock blockId (blocks w)),
     tick_attr w);
  JSON_parse := parseStrings
|}.

End InMemorySource.

(* ===================================================================== *)
(** ** Vocabulary of the statements *)
(* ===================================================================== *)

(** *** The scope of the statements about query text

    The sources run on UTF-16 text and on double-precision numbers.  The
    embedding renders them on ASCII text, where [\s], [trim] and the case
    conversions are the functions of [JsString], and on numerals that a
    double holds exactly, which every numeral of at most 15 digits is.  A
    statement about every query text is made for the texts in this scope. *)

Fixpoint asciiOnly (s : string) : bool :=
  match s with
  | EmptyString => true
  | String c r => (nat_of_ascii c <? 128)%nat && asciiOnly r
  end.

(** No run of more than 15 digits; [run] counts the digits of the run that
    the text continues. *)
Fixpoint shortNumerals (run : nat) (s : string) : bool :=
  match s with
  | EmptyString => true
  | String c r =>
      if isDigit c then (run <? 15)%nat && shortNumerals (S run) r
      else shortNumerals O r
  end.

Definition inScope (queryString : string) : bool :=
  asciiOnly queryString && shortNumerals O queryString.

(** *** Words of a line *)

Fixpoint noSpace (w : string) : bool :=
  match w with
  | EmptyString => true
  | String c r => negb (isSpace c) && noSpace r
  end.

Fixpoint allSpace (s : string) : bool :=
  match s with
  | EmptyString => true
  | String c r => isSpace c && allSpace r
  end.

(** The text after a word: nothing, or white space first. *)
Definition endsWord (rest : string) : bool :=
  match rest with
  | EmptyString => true
  | String c _ => isSpace c
  end.

(** The sort condition that a line of [parse] yields: the lines that reach
    the [sort by] branch of the loop are those that start with [sort by ]
    and have no inline connective, which an earlier branch takes. *)
Definition sortOfLine (line : string) : option SortCondition :=
  let lower := toLowerCase line in
  if startsWith "sort by " lower
     && negb (includes " and " lower) && negb (includes " or " lower)
  then QueryParser.parseSort (trim (substringFrom 8 line))
  else None.


(** The narrowing calls among the calls made to the record source. *)
Definition isSqlCall (c : Call) : bool :=
  match c with
  | SqlCall _ => true
  | AttrsCall _ => false
  end.

Definition fetches (calls : list Call) : nat :=
  length (List.filter isSqlCall calls).

Definition isOrdering (o : QueryOperator) : bool :=
  match o with
  | LESS_THAN | LESS_THAN_OR_EQUAL | GREATER_THAN | GREATER_THAN_OR_EQUAL => true
  | _ => false
  end.

(** Stated from the specification: the exact date comparison that the
    refine pass of section 4.3 is to apply to a hydrated record.  The
    record's date of a canonical date field, and the comparison of two
    [YYYY-MM-DD] dates, which is the comparison of their texts. *)
Definition recordDate (canonical : string) (t : TaskData) : option string :=
  if String.eqb canonical "due_date" then due_date t
  else if String.eqb canonical "scheduled_date" then scheduled_date t
  else if String.eqb canonical "start_date" then start_date t
  else if String.eqb canonical "done_date" then done_date t
  else if String.eqb canonical "cancelled_date" then cancelled_date t
  else None.

Definition compareDates (o : QueryOperator) (d bound : string) : bool :=
  match o, String.compare d bound with
  | LESS_THAN, Lt => true
  | LESS_THAN_OR_EQUAL, (Lt | Eq) => true
  | GREATER_THAN, Gt => true
  | GREATER_THAN_OR_EQUAL, (Gt | Eq) => true
  | _, _ => false
  end.

Definition satisfiesDateFilter (clock : Z) (f : FilterCondition) (t : TaskData)
  : bool :=
  match QueryParser.normalizeFieldName (field f), Engine.firstValue f with
  | Some canonical, Some v =>
      match recordDate canonical t with
      | Some d => compareDates (operator f) d (QueryParser.parseQueryDate clock v)
      | None => false
      end
  | _, _ => false
  end.

(** Stated from the specification: the two conditions under which
    [validateQuery] is to reject. *)
Definition unboundedScan (q : ParsedQuery) : Prop :=
  filters q = [] /\ limit q = None.

Definition oversizedList (q : ParsedQuery) : Prop :=
  exists f l, In f (filters q) /\ value f = Values l /\ (100 < length l)%nat.

(** The first task of a run (the examples use it on runs that return
    one). *)
Definition firstTask {W : Type}
    (run : Outcome (list TaskData) * QueryEngine * W * list Call)
  : option TaskData :=
  match run with
  | (Ok (t :: _), _, _, _) => Some t
  | _ => None
  end.

(* ===================================================================== *)
(** ** Scenarios of the closed examples *)
(* ===================================================================== *)

Module Scenario.
Import InMemorySource.

Definition nl : string := String "010" EmptyString.

(** A task block as [taskDataToBlockAttributes] stores it, with the
    attributes the examples look at. *)
Definition taskBlock (blockId stat due desc createdAt : string) : Block :=
  {| block_id := blockId; block_content := desc; block_created := createdAt;
     block_attrs := [("custom-task-id", blockId);
                     ("custom-task-status", stat);
                     ("custom-task-due", due);
                     ("custom-task-description", desc)] |}.

(** 2026-01-25, local midnight, as a day number and in milliseconds. *)
Definition day_2026_01_25 : Z := JsDate.makeDay 2026 0 25.

Definition worldOf (bs : list Block) : World :=
  {| blocks := bs; clock_ms := day_2026_01_25 * 86400000;
     clock_day := day_2026_01_25; clock_iso := "2026-01-25T00:00:00.000Z";
     sql_calls := 0; attr_calls := 0 |}.

(** The three records of the end-to-end example. *)
Definition threeRecords : World :=
  worldOf [taskBlock "20260105-aaa" "DONE" "2026-01-20" "file the report" "20260105101500";
           taskBlock "20260106-bbb" "TODO" "2026-01-26" "call the bank" "20260106091000";
           taskBlock "20260107-ccc" "TODO" "2026-02-10" "renew the passport" "20260107120000"].

Definition endToEndQuery : string :=
  "tasks" +:+ nl +:+ "where status != done" +:+ nl +:+ "  and due <= today + 7d"
    +:+ nl +:+ "sort by due asc" +:+ nl +:+ "limit 50".

(** The same world some milliseconds later. *)
Definition later (ms : Z) (w : World) : World :=
  {| blocks := blocks w; clock_ms := clock_ms w + ms; clock_day := clock_day w;
     clock_iso := clock_iso w; sql_calls := sql_calls w;
     attr_calls := attr_calls w |}.

Definition plugin : SiYuanTasksPlugin :=
  {| queryEngine := Engine.create;
     queryOptimizer := DEFAULT_OPTIMIZATION_SETTINGS;
     globalFilterService :=
       {| excludedNotebooks := []; excludedPaths := []; excludedTags := [];
          includedTags := []; defaultConditions := EmptyString |} |}.

End Scenario.

Module Runs.
Import InMemorySource Scenario.

(** The parts of the result of a run. *)
Definition tasksOf (run : Outcome (list TaskData) * QueryEngine * World * list Call)
  : list TaskData :=
  match run with
  | (Ok tasks, _, _, _) => tasks
  | (Err _, _, _, _) => []
  end.

Definition engineOf (run : Outcome (list TaskData) * QueryEngine * World * list Call)
  : QueryEngine := snd (fst (fst run)).

Definition worldAfter (run : Outcome (list TaskData) * QueryEngine * World * list Call)
  : World := snd (fst run).

Definition callsOf (run : Outcome (list TaskData) * QueryEngine * World * list Call)
  : list Call := snd run.

(** All tasks of the three-record store, asked for without the cache. *)
Definition allTasksNoCache :=
  Engine.executeQuery Engine.create ("tasks" +:+ nl +:+ "limit 10") false threeRecords.

(** The same with the cache enabled, on a new engine. *)
Definition allTasks :=
  Engine.executeQuery Engine.create ("tasks" +:+ nl +:+ "limit 10") true threeRecords.

End Runs.

Module DateScenario.
Import InMemorySource Scenario.

(** One task, due on 2026-06-01, whose description happens to contain the
    attribute name that the date filter looks for. *)
Definition dateStore : World :=
  worldOf [taskBlock "20260108-ddd" "TODO" "2026-06-01"
             "rename custom-task-due-date in the export" "20260108080000"].

Definition dueBefore2026 : string :=
  "tasks" +:+ nl +:+ "where due < 2026-01-01".

Definition dateRun :=
  Engine.executeQuery Engine.create dueBefore2026 true dateStore.

(** A filter that every record of the three-record store satisfies. *)
Definition dueAfter2025 : string :=
  "tasks" +:+ nl +:+ "where due > 2025-12-31".

Definition runOnThree :=
  Engine.executeQuery Engine.create dueAfter2025 true threeRecords.

(** The same with [<=]: a bound that every record of the store meets. *)
Definition dueUpTo2026 : string :=
  "tasks" +:+ nl +:+ "where due <= 2026-12-31".

Definition runUpTo2026 :=
  Engine.executeQuery Engine.create dueUpTo2026 true threeRecords.

End DateScenario.

Module SortScenario.
Import InMemorySource Scenario.

(** Two open tasks; the one created first is due last. *)
Definition sortStore : World :=
  worldOf [taskBlock "20260105-aaa" "TODO" "2026-02-10" "renew the passport" "20260105101500";
           taskBlock "20260106-bbb" "TODO" "2026-01-26" "call the bank" "20260106091000"].

Definition byDue : string := "tasks" +:+ nl +:+ "sort by due asc".

Definition sortRun := Engine.executeQuery Engine.create byDue true sortStore.

(** The list form of the grammar of the specification. *)
Definition byDueThenPriority : string :=
  "tasks" +:+ nl +:+ "sort by due desc, priority asc".

Definition listRun :=
  Engine.executeQuery Engine.create byDueThenPriority true sortStore.

End SortScenario.

Module EndToEnd.
Import Scenario.

Definition endToEndRun :=
  Engine.executeQuery Engine.create endToEndQuery true threeRecords.

End EndToEnd.

Module InvalidQueries.
Import Scenario.

(** No filter and no limit. *)
Definition unbounded : string := "tasks".

(** A membership list of 101 values. *)
Definition longList : string :=
  "tasks" +:+ nl +:+ "where tag in " +:+ String.concat "," (repeat "x"%string 101).

Definition runUnbounded :=
  Plugin.handleQueryExecute plugin unbounded false threeRecords.

Definition runLongList :=
  Plugin.handleQueryExecute plugin longList false threeRecords.

End InvalidQueries.

(** The query texts of the parser tests of the repository
    (QueryParser.test.ts): template literals that start with a line break
    and indent every line. *)
Module RepositoryTests.
Import Scenario.

Definition indent : string := "                ".

Definition text (lines : list string) : string :=
  nl +:+ String.concat EmptyString (map (fun l => indent +:+ l +:+ nl) lines)
     +:+ "            ".

Definition simpleQuery := text ["tasks"; "where status = TODO"; "limit 50"].

Definition multipleFilters :=
  text ["tasks"; "where status != done"; "and due <= today"; "limit 100"].

Definition withSort := text ["tasks"; "where status = TODO"; "sort by due asc"].

Definition multipleSorts :=
  text ["tasks"; "sort by due asc"; "sort by priority desc"].

Definition orLogic := text ["tasks"; "where status = TODO"; "or status = DOING"].

Definition includesOperator := text ["tasks"; "where tag includes work"].

Definition withComments :=
  text ["tasks"; "# This is a comment"; "where status = TODO";
        "# Another comment"; "limit 50"].

End RepositoryTests.

(* ===================================================================== *)
(** ** Further parts of the sources *)
(* ===================================================================== *)

From Stdlib Require Import DecimalPos DecimalZ.

(** The state in which [parse] starts its loop. *)
Definition initialState : QueryParser.ParseState :=
  {| QueryParser.query := {| filters := []; sorts := []; limit := None |};
     QueryParser.currentLogic := None |}.

(** The lines that leave no trace: the empty line, the comment and the
    header keyword. *)
Definition skipped (line : string) : Prop :=
  trim line = EmptyString
  \/ startsWith "#" (trim line) = true
  \/ toLowerCase (trim line) = "tasks"%string.

(** What [parseValue] can return: a scalar, or a list that the commas of
    the text cut into at least two elements. *)
Definition parsedValue (v : FilterValue) : Prop :=
  match v with
  | Scalar _ => True
  | Values l => (2 <= length l)%nat
  end.

(* ===================================================================== *)
(** ** The embedding against the tests of the repository *)
(* ===================================================================== *)

(** The parser tests that the source passes. *)
Example test_simple_query :
  QueryParser.parse RepositoryTests.simpleQuery
  = {| filters := [{| field := "status"; operator := EQUALS;
                      value := Scalar "TODO"; logic := None |}];
       sorts := []; limit := Some 50 |}.
Proof. vm_compute. reflexivity. Qed.

Example test_sort :
  sorts (QueryParser.parse RepositoryTests.withSort)
  = [{| sort_field := "due"; direction := ASC |}].
Proof. vm_compute. reflexivity. Qed.

Example test_multiple_sorts :
  sorts (QueryParser.parse RepositoryTests.multipleSorts)
  = [{| sort_field := "due"; direction := ASC |};
     {| sort_field := "priority"; direction := DESC |}].
Proof. vm_compute. reflexivity. Qed.

Example test_includes :
  map operator (filters (QueryParser.parse RepositoryTests.includesOperator))
  = [CONTAINS].
Proof. vm_compute. reflexivity. Qed.

Example test_comments :
  let q := QueryParser.parse RepositoryTests.withComments in
  length (filters q) = 1%nat /\ limit q = Some 50.
Proof. vm_compute. split; reflexivity. Qed.

Example test_normalizeFieldName :
  map QueryParser.normalizeFieldName
    ["due"; "scheduled"; "start"; "tag"; "status"; "priority"]
  = map Some
      ["due_date"; "scheduled_date"; "start_date"; "tags"; "status"; "priority"].
Proof. vm_compute. reflexivity. Qed.

Example test_parseQueryDate :
  map (QueryParser.parseQueryDate Scenario.day_2026_01_25)
    ["today"; "tomorrow"; "today + 7d"; "2026-01-25"]
  = ["2026-01-25"; "2026-01-26"; "2026-02-01"; "2026-01-25"].
Proof. vm_compute. reflexivity. Qed.

(** The two parser tests that the source fails.  The test "should parse
    query with multiple filters" expects two filters, NOT_EQUALS on
    [status] and LESS_THAN_OR_EQUAL on [due] with logic AND; the test
    "should parse query with OR logic" expects a second filter with logic
    OR. *)
Example test_multiple_filters_fails :
  QueryParser.parse RepositoryTests.multipleFilters
  = {| filters := [{| field := "status !"; operator := EQUALS;
                      value := Scalar "done"; logic := None |}];
       sorts := []; limit := Some 100 |}.
Proof. vm_compute. reflexivity. Qed.

Example test_or_logic_fails :
  QueryParser.parse RepositoryTests.orLogic
  = {| filters := [{| field := "status"; operator := EQUALS;
                      value := Scalar "TODO"; logic := None |}];
       sorts := []; limit := None |}.
Proof. vm_compute. reflexivity. Qed.

(** The calendar: day numbers of known dates, the overflow of a day of the
    month and of a month, and a date out of the range of [Date]. *)
Example calendar_examples :
  JsDate.civil 0 = (1970, 0, 1)
  /\ JsDate.civil (-1) = (1969, 11, 31)
  /\ JsDate.makeDay 2000 2 1 = 11017
  /\ JsDate.civil (JsDate.makeDay 2024 1 29) = (2024, 1, 29)
  /\ JsDate.civil (JsDate.makeDay 2026 0 32) = (2026, 1, 1)
  /\ JsDate.civil (JsDate.makeDay 2025 12 31) = (2026, 0, 31)
  /\ QueryParser.parseQueryDate (JsDate.makeDay 2024 0 31) "today + 1m" = "2024-03-02"
  /\ QueryParser.parseQueryDate (JsDate.makeDay 2024 1 29) "today + 1y" = "2025-03-01"
  /\ QueryParser.parseQueryDate (JsDate.makeDay 2026 0 25) "Yesterday - 2w" = "2026-01-10"
  /\ QueryParser.parseQueryDate (JsDate.makeDay 2026 0 25) "today + 999999999d"
     = "NaN-NaN-NaN".
Proof. vm_compute. repeat split; reflexivity. Qed.

(* ===================================================================== *)
(** ** Properties of the optimizer *)
(* ===================================================================== *)

Section OptimizerFacts.
Import QueryOptimizer.

Variable settings : QueryOptimizationSettings.

(** What [optimize] does to the limit, case by case. *)
Lemma optimize_limit (q : ParsedQuery) :
  limit (optimize settings q) =
  match limit q with
  | None => Some (maxResults settings)
  | Some n =>
      if n =? 0 then Some (maxResults settings)
      else if maxResults settings <? n then Some (maxResults settings)
      else Some n
  end.
Proof.
  unfold optimize, noLimit.
  destruct (limit q) as [n|] eqn:Hl; simpl; [|reflexivity].
  destruct (n =? 0); simpl; [reflexivity|].
  destruct (maxResults settings <? n); simpl; [reflexivity|exact Hl].
Qed.

(** [optimize] touches nothing but the limit. *)
Lemma optimize_filters_sorts (q : ParsedQuery) :
  filters (optimize settings q) = filters q /\ sorts (optimize settings q) = sorts q.
Proof.
  unfold optimize. destruct (noLimit (limit q) || _); split; reflexivity.
Qed.

(** For a limit that is missing or not negative the clamping rule of the
    specification holds: [min L max] for a positive [L], the maximum
    otherwise, and never more than the caller's own positive limit. *)
Lemma optimize_clamps (q : ParsedQuery) :
  0 < maxResults settings ->
  match limit q with Some n => 0 <= n | None => True end ->
  exists l, limit (optimize settings q) = Some l
    /\ 0 < l <= maxResults settings
    /\ match limit q with
       | Some n => if 0 <? n then l = Z.min n (maxResults settings)
                   else l = maxResults settings
       | None => l = maxResults settings
       end.
Proof.
  intros Hmax Hn. rewrite optimize_limit.
  destruct (limit q) as [n|]; [|exists (maxResults settings); repeat split; lia].
  destruct (Z.eqb_spec n 0) as [->|Hz].
  - exists (maxResults settings). simpl. repeat split; lia.
  - destruct (Z.ltb_spec (maxResults settings) n).
    + exists (maxResults settings). destruct (Z.ltb_spec 0 n); repeat split; lia.
    + exists n. destruct (Z.ltb_spec 0 n); repeat split; lia.
Qed.

End OptimizerFacts.

(** C5 (the source departs from the specification).  A negative limit, which
    [parse] accepts from a line such as [limit -5], passes through
    [optimize] unchanged: the resulting limit is neither positive nor the
    configured maximum, and the statement compiled from it carries
    [LIMIT -5]. *)
Theorem optimize_keeps_negative_limit :
  let q := QueryParser.parse ("tasks" +:+ Scenario.nl +:+ "limit -5") in
  limit q = Some (-5)
  /\ limit (QueryOptimizer.optimize DEFAULT_OPTIMIZATION_SETTINGS q) = Some (-5)
  /\ Engine.compileToSQL 0 (QueryOptimizer.optimize DEFAULT_OPTIMIZATION_SETTINGS q)
     = Some "SELECT * FROM blocks WHERE (ial LIKE '%custom-task-id%') LIMIT -5".
Proof. repeat split; vm_compute; reflexivity. Qed.

Lemma tooManyValues_spec (f : FilterCondition) :
  QueryOptimizer.tooManyValues f = true
  <-> exists l, value f = Values l /\ (100 < length l)%nat.
Proof.
  unfold QueryOptimizer.tooManyValues. destruct (value f) as [s|l].
  - split; [discriminate|]. intros (l & Hl & _). discriminate.
  - rewrite Nat.ltb_lt. split.
    + intros Hlen. exists l. split; [reflexivity|exact Hlen].
    + intros (l' & Hl & Hlen). injection Hl as <-. exact Hlen.
Qed.

Lemma oversizedList_existsb (q : ParsedQuery) :
  existsb QueryOptimizer.tooManyValues (filters q) = true <-> oversizedList q.
Proof.
  unfold oversizedList. rewrite existsb_exists. split.
  - intros (f & Hin & Hf). apply tooManyValues_spec in Hf as (l & Hl & Hlen).
    exists f, l. auto.
  - intros (f & l & Hin & Hl & Hlen). exists f. split; [exact Hin|].
    apply tooManyValues_spec. exists l. auto.
Qed.

(** C6, as stated, fails: a query without filters whose limit line reads
    [limit 0] has an explicit limit and no list value, and is rejected. *)
Lemma validateQuery_rejects_limit_zero :
  let q := QueryParser.parse ("tasks" +:+ Scenario.nl +:+ "limit 0") in
  limit q = Some 0
  /\ valid (QueryOptimizer.validateQuery q) = false
  /\ ~ (unboundedScan q \/ oversizedList q).
Proof.
  repeat split; try (vm_compute; reflexivity).
  intros [[_ Hl] | (f & l & Hin & _)].
  - vm_compute in Hl. discriminate.
  - vm_compute in Hin. exact Hin.
Qed.

(** The verdict of [validateQuery] as a Boolean, and the reason that goes
    with it. *)
Lemma validateQuery_verdict (q : ParsedQuery) :
  valid (QueryOptimizer.validateQuery q)
  = negb (((length (filters q) =? 0)%nat && QueryOptimizer.noLimit (limit q))
          || existsb QueryOptimizer.tooManyValues (filters q))
  /\ (error (QueryOptimizer.validateQuery q) = None
      <-> valid (QueryOptimizer.validateQuery q) = true).
Proof.
  unfold QueryOptimizer.validateQuery.
  destruct ((length (filters q) =? 0)%nat && QueryOptimizer.noLimit (limit q));
    [|destruct (existsb QueryOptimizer.tooManyValues (filters q))];
    simpl; split; try reflexivity; split; congruence.
Qed.

Lemma noLimit_spec (l : option Z) :
  QueryOptimizer.noLimit l = true <-> l = None \/ l = Some 0.
Proof.
  unfold QueryOptimizer.noLimit. destruct l as [n|].
  - rewrite Z.eqb_eq. split.
    + intros ->. right. reflexivity.
    + intros [Hn|Hz]; [discriminate | injection Hz as ->; reflexivity].
  - split; [left; reflexivity | reflexivity].
Qed.

(** C6, amended.  [validateQuery] rejects exactly when the query has no
    filters and its limit is missing or zero, or some filter has a list
    value of more than 100 elements; a rejection carries a reason string,
    an acceptance carries none, and the answer is a verdict only: the
    query is not changed. *)
Theorem validateQuery_rejects_iff (q : ParsedQuery) :
  (valid (QueryOptimizer.validateQuery q) = false
   <-> (filters q = [] /\ (limit q = None \/ limit q = Some 0)) \/ oversizedList q)
  /\ (valid (QueryOptimizer.validateQuery q) = false
      <-> exists reason, error (QueryOptimizer.validateQuery q) = Some reason)
  /\ (valid (QueryOptimizer.validateQuery q) = true
      <-> error (QueryOptimizer.validateQuery q) = None).
Proof.
  destruct (validateQuery_verdict q) as [Hvalid Herror].
  split; [|split].
  - rewrite Hvalid, negb_false_iff, orb_true_iff, andb_true_iff.
    rewrite Nat.eqb_eq, length_zero_iff_nil, noLimit_spec, oversizedList_existsb.
    reflexivity.
  - rewrite <- not_true_iff_false, <- Herror.
    destruct (error (QueryOptimizer.validateQuery q)) as [reason|].
    + split; [eauto | discriminate].
    + split; [congruence | intros (reason & Hr); discriminate].
  - symmetry. exact Herror.
Qed.

(* ===================================================================== *)
(** ** Properties of the parser *)
(* ===================================================================== *)

Section ParserFacts.
Import QueryParser.

(** [parseFilter] tries the operators in the order of the enumeration, in
    which [includes] comes before [not includes] and [in] before
    [not in]. *)
Lemma single_word_operators_come_first :
  entries = [EQUALS; NOT_EQUALS; GREATER_THAN; GREATER_THAN_OR_EQUAL;
             LESS_THAN; LESS_THAN_OR_EQUAL; CONTAINS; NOT_CONTAINS; IN; NOT_IN].
Proof. reflexivity. Qed.

Lemma pushFilter_length (q : ParsedQuery) (f : FilterCondition) (l : option BooleanLogic) :
  length (filters (pushFilter q f l)) = S (length (filters q)).
Proof. unfold pushFilter. simpl. rewrite length_app. simpl. lia. Qed.

(** A line that starts with [where] and a space is handled by the first
    branch of the loop alone: it adds one filter or none, whatever
    connectives it contains. *)
Lemma where_line_adds_at_most_one_filter (st : ParseState) (line : string) :
  startsWith "where " (toLowerCase line) = true ->
  (length (filters (query (parseLine st line))) <= S (length (filters (query st))))%nat.
Proof.
  intros Hw. unfold parseLine.
  destruct (String.eqb (toLowerCase line) "tasks"); [lia|].
  rewrite Hw.
  destruct (parseFilter (trim (substringFrom 6 line))); cbn [query].
  - rewrite pushFilter_length. lia.
  - lia.
Qed.

(** One operator of the loop of [parseFilter]: when its pattern is found
    and splits the clause in two, the loop returns a filter with that
    operator. *)
Lemma parseFilterFrom_first_match (o : QueryOperator) (rest : list QueryOperator)
    (s p0 p1 : string) :
  testRe (opRegex o) s = true ->
  split (opRegex o) s = [p0; p1] ->
  exists f, parseFilterFrom (o :: rest) s = Some f /\ operator f = o.
Proof.
  intros Ht Hs. cbn [parseFilterFrom]. rewrite Ht, Hs. eauto.
Qed.

(** An operator that the loop passes over leaves the result to the
    operators after it. *)
Lemma parseFilterFrom_later (o o' : QueryOperator) (rest : list QueryOperator)
    (s : string) (f : FilterCondition) :
  parseFilterFrom (o :: rest) s = Some f ->
  operator f = o' ->
  o <> o' ->
  parseFilterFrom rest s = Some f
  /\ (testRe (opRegex o) s = false
      \/ length (split (opRegex o) s) <> 2%nat).
Proof.
  cbn [parseFilterFrom]. intros Hp Ho Hne.
  destruct (testRe (opRegex o) s); [|auto].
  destruct (split (opRegex o) s) as [|p0 [|p1 [|p2 more]]];
    try (split; [exact Hp | right; simpl; lia]).
  injection Hp as <-. simpl in Ho. congruence.
Qed.

(** The precedence of the loop, for every clause: NOT_CONTAINS is the
    result only if the pattern of [includes] was not found in the clause or
    did not split it in two; likewise NOT_IN and the pattern of [in]. *)
Lemma multi_word_operators_are_tried_last (s : string) (f : FilterCondition) :
  parseFilter s = Some f ->
  (operator f = NOT_CONTAINS ->
   testRe (reOp "includes") s = false
   \/ length (split (reOp "includes") s) <> 2%nat)
  /\ (operator f = NOT_IN ->
      testRe (reOp "in") s = false
      \/ length (split (reOp "in") s) <> 2%nat).
Proof.
  unfold parseFilter, entries. intros Hp. split; intros Ho.
  - do 6 (apply parseFilterFrom_later with (o' := NOT_CONTAINS) in Hp
            as [Hp _]; [|exact Ho|discriminate]).
    apply parseFilterFrom_later with (o' := NOT_CONTAINS) in Hp
      as [_ Hskip]; [exact Hskip|exact Ho|discriminate].
  - do 8 (apply parseFilterFrom_later with (o' := NOT_IN) in Hp
            as [Hp _]; [|exact Ho|discriminate]).
    apply parseFilterFrom_later with (o' := NOT_IN) in Hp
      as [_ Hskip]; [exact Hskip|exact Ho|discriminate].
Qed.

End ParserFacts.

(** C3 (the source departs from the specification).  A clause [<field> not includes
    <value>] is matched by the pattern of [includes] first: the result is
    a CONTAINS filter whose field ends in [not].  The same happens to
    [not in], and inside a complete query. *)
Theorem not_includes_parsed_as_includes :
  QueryParser.parseFilter "tag not includes work"
  = Some {| field := "tag not"; operator := CONTAINS;
            value := Scalar "work"; logic := None |}
  /\ QueryParser.parseFilter "status not in done, cancelled"
     = Some {| field := "status not"; operator := IN;
               value := Values ["done"; "cancelled"]; logic := None |}
  /\ filters (QueryParser.parse
                ("tasks" +:+ Scenario.nl +:+ "where tag not includes work"))
     = [{| field := "tag not"; operator := CONTAINS;
           value := Scalar "work"; logic := None |}].
Proof. repeat split; vm_compute; reflexivity. Qed.

(** C7 (the source departs from the specification).  The line [where A and B or C]
    takes the [where] branch, which parses the whole remainder as one
    clause: here one CONTAINS filter, not three filters.  Without the
    [where] prefix the line is split at [and] only, and the remainder
    [B or C] becomes a single filter: two filters with markers none and
    AND. *)
Theorem where_and_or_line_is_one_clause :
  QueryParser.parse "where status = TODO and priority = 1 or tag includes work"
  = {| filters := [{| field := "status = TODO and priority = 1 or tag";
                      operator := CONTAINS; value := Scalar "work";
                      logic := None |}];
       sorts := []; limit := None |}
  /\ QueryParser.parse "where a = 1 and b = 2 or c = 3"
     = {| filters := []; sorts := []; limit := None |}
  /\ QueryParser.parse "status = TODO and priority = 1 or tag includes work"
     = {| filters := [{| field := "status"; operator := EQUALS;
                         value := Scalar "TODO"; logic := None |};
                      {| field := "priority"; operator := EQUALS;
                         value := Scalar "1 or tag includes work";
                         logic := Some AND |}];
          sorts := []; limit := None |}.
Proof. repeat split; vm_compute; reflexivity. Qed.

(* ===================================================================== *)
(** ** Properties of the engine, for every host *)
(* ===================================================================== *)

Section EngineFacts.
Context {Env : Type} `{Host Env}.
Import Engine.

Lemma hydrated_block_id (env : Env) (blockId : string)
    (attrs : gmap string string) (t : TaskData) :
  blockAttributesToTaskData env blockId attrs = Task t ->
  source_block_id t = blockId.
Proof.
  unfold blockAttributesToTaskData.
  destruct (negb _ || negb _); [discriminate|].
  destruct (parseList _); [|discriminate].
  destruct (parseList _); [|discriminate].
  intros [= <-]. reflexivity.
Qed.

(** Hydration asks for the attributes of every candidate, once, in the
    order of the candidates. *)
Lemma resultsToTasks_calls (results : list BlockRow) (env : Env) :
  snd (resultsToTasks results env) = map (fun r => AttrsCall (id r)) results.
Proof.
  revert env. induction results as [|r rest IH]; intros env; simpl.
  - reflexivity.
  - destruct (getBlockAttrs (id r) env) as [answer env1].
    specialize (IH env1).
    destruct (resultsToTasks rest env1) as [[tasks env2] calls].
    simpl in *. rewrite IH. reflexivity.
Qed.

(** Hydration keeps the order of the candidates and adds no record: the
    blocks of the tasks are a subsequence of the candidates. *)
Lemma resultsToTasks_sublist (results : list BlockRow) (env : Env) :
  map source_block_id (fst (fst (resultsToTasks results env)))
    `sublist_of` map id results.
Proof.
  revert env. induction results as [|r rest IH]; intros env; simpl.
  - constructor.
  - destruct (getBlockAttrs (id r) env) as [answer env1].
    specialize (IH env1).
    destruct (resultsToTasks rest env1) as [[tasks env2] calls].
    simpl in *.
    destruct answer as [attrs|]; simpl; [|apply sublist_cons; exact IH].
    destruct (blockAttributesToTaskData env1 (id r) attrs) as [| |t] eqn:Hh;
      simpl; try (apply sublist_cons; exact IH).
    rewrite (hydrated_block_id _ _ _ _ Hh). apply sublist_skip. exact IH.
Qed.

Lemma fetches_hydration (results : list BlockRow) :
  fetches (map (fun r => AttrsCall (id r)) results) = 0%nat.
Proof. unfold fetches. induction results; simpl; auto. Qed.

(** A cache hit answers without touching the engine, the environment or
    the record source. *)
Lemma executeQuery_hit (eng : QueryEngine) (q : string) (env : Env)
    (cachedResult : list TaskData) :
  cacheRead eng q env = Some cachedResult ->
  executeQuery eng q true env = (Ok cachedResult, eng, env, []).
Proof. intros Hc. unfold executeQuery. rewrite Hc. reflexivity. Qed.

(** What a successful call has done: either it was answered from the
    cache, or it went through parse, compile, narrowing and hydration and
    then wrote the cache entry of its query string. *)
Lemma executeQuery_ok_inv (eng : QueryEngine) (q : string) (useCache : bool)
    (env : Env) (tasks : list TaskData) (eng' : QueryEngine) (env' : Env)
    (calls : list Call) :
  executeQuery eng q useCache env = (Ok tasks, eng', env', calls) ->
  (useCache = true /\ cacheRead eng q env = Some tasks
   /\ eng' = eng /\ env' = env /\ calls = [])
  \/ ((useCache = false \/ cacheRead eng q env = None)
      /\ exists sql results env1,
           compileToSQL (today env) (QueryParser.parse q) = Some sql
           /\ querySQL sql env = (Some results, env1)
           /\ resultsToTasks results env1
              = (tasks, env', map (fun r => AttrsCall (id r)) results)
           /\ calls = SqlCall sql :: map (fun r => AttrsCall (id r)) results
           /\ eng' = {| queryCache :=
                          <[q := {| result := tasks; timestamp := now env' |}]>
                            (queryCache eng);
                        cacheTimeout := cacheTimeout eng |}).
Proof.
  unfold executeQuery. intros Hrun.
  destruct (if useCache then cacheRead eng q env else None) as [r|] eqn:Hread.
  - left. destruct useCache; [|discriminate].
    injection Hrun as <- <- <- <-. auto.
  - right. split.
    { destruct useCache; [right; exact Hread | left; reflexivity]. }
    destruct (compileToSQL (today env) (QueryParser.parse q)) as [sql|];
      [|discriminate].
    destruct (querySQL sql env) as [[results|] env1] eqn:Hsql; [|discriminate].
    pose proof (resultsToTasks_calls results env1) as Hcalls.
    destruct (resultsToTasks results env1) as [[ts env2] cs] eqn:Hres.
    simpl in Hcalls. subst cs.
    injection Hrun as <- <- <- <-.
    exists sql, results, env1. auto.
Qed.

End EngineFacts.


(** C9.  When a call with caching enabled misses the cache and completes,
    a second call with the same query string, made while the clock is
    still within the freshness window of the entry just written, returns
    the same result, leaves engine and environment as they are and makes
    no call to the record source: one narrowing call in all. *)
Theorem second_call_served_from_cache {Env : Type} `{Host Env}
    (eng eng1 : QueryEngine) (q : string) (env env1 env2 : Env)
    (tasks : list TaskData) (calls1 : list Call) :
  Engine.cacheRead eng q env = None ->
  Engine.executeQuery eng q true env = (Ok tasks, eng1, env1, calls1) ->
  now env2 - now env1 < cacheTimeout eng1 ->
  exists calls2,
    Engine.executeQuery eng1 q true env2 = (Ok tasks, eng1, env2, calls2)
    /\ calls2 = []
    /\ fetches (calls1 ++ calls2) = 1%nat.
Proof.
  intros Hmiss Hrun Hfresh.
  apply executeQuery_ok_inv in Hrun as [(_ & Hhit & _) | (_ & Hdone)];
    [congruence|].
  destruct Hdone as (sql & results & env' & _ & _ & _ & -> & ->).
  exists []. split; [|split; [reflexivity|]].
  - apply executeQuery_hit. unfold Engine.cacheRead. simpl in *.
    rewrite lookup_insert_eq. simpl.
    destruct (Z.ltb_spec (now env2 - now env1) (cacheTimeout eng)); [reflexivity|lia].
  - rewrite app_nil_r. unfold fetches. simpl. f_equal. apply fetches_hydration.
Qed.


Lemma second_call_served_from_cache_witness :
  Engine.cacheRead Engine.create ("tasks" +:+ Scenario.nl +:+ "limit 10")
    Scenario.threeRecords = None
  /\ map task_id (Runs.tasksOf Runs.allTasks)
     = ["20260105-aaa"; "20260106-bbb"; "20260107-ccc"]
  /\ exists calls2,
       Engine.executeQuery (Runs.engineOf Runs.allTasks)
         ("tasks" +:+ Scenario.nl +:+ "limit 10") true
         (Scenario.later 59999 (Runs.worldAfter Runs.allTasks))
       = (Ok (Runs.tasksOf Runs.allTasks), Runs.engineOf Runs.allTasks,
          Scenario.later 59999 (Runs.worldAfter Runs.allTasks), calls2)
       /\ calls2 = []
       /\ fetches (Runs.callsOf Runs.allTasks ++ calls2) = 1%nat.
Proof.
  split; [vm_compute; reflexivity|].
  split; [vm_compute; reflexivity|].
  apply (second_call_served_from_cache Engine.create (Runs.engineOf Runs.allTasks)
           ("tasks" +:+ Scenario.nl +:+ "limit 10") Scenario.threeRecords
           (Runs.worldAfter Runs.allTasks)).
  - vm_compute. reflexivity.
  - vm_compute. reflexivity.
  - vm_compute. reflexivity.
Defined.

(* ===================================================================== *)
(** ** Properties of the string primitives and of the patterns *)
(* ===================================================================== *)

Section TextFacts.

Lemma append_cons (c : ascii) (s r : string) :
  String c s +:+ r = String c (s +:+ r).
Proof. reflexivity. Qed.

Lemma append_empty (r : string) : EmptyString +:+ r = r.
Proof. reflexivity. Qed.

Lemma append_assoc (a b c : string) : (a +:+ b) +:+ c = a +:+ (b +:+ c).
Proof.
  induction a as [|x a IH]; [reflexivity|].
  rewrite !append_cons, IH. reflexivity.
Qed.

Lemma rev_acc_append (s acc t : string) :
  rev_acc s acc +:+ t = rev_acc s (acc +:+ t).
Proof.
  revert acc. induction s as [|c s IH]; intros acc; simpl; [reflexivity|].
  apply IH.
Qed.

Lemma reverse_cons (c : ascii) (acc : string) :
  reverse (String c acc) = reverse acc +:+ String c EmptyString.
Proof. unfold reverse. simpl. rewrite rev_acc_append. reflexivity. Qed.

Lemma reverse_rev_acc (s acc : string) :
  reverse (rev_acc s acc) = reverse acc +:+ s.
Proof.
  revert acc. induction s as [|c s IH]; intros acc; simpl.
  - unfold reverse. rewrite rev_acc_append. reflexivity.
  - rewrite IH, reverse_cons, append_assoc. reflexivity.
Qed.

Lemma reverse_involutive (s : string) : reverse (reverse s) = s.
Proof. unfold reverse at 2. rewrite reverse_rev_acc. reflexivity. Qed.

Lemma startsWith_char (a b : ascii) (s : string) :
  startsWith (String a EmptyString) (String b s) = Ascii.eqb a b.
Proof.
  unfold startsWith. cbn [stripPrefix]. destruct (Ascii.eqb a b); reflexivity.
Qed.

Lemma includes_char_cons (a c : ascii) (s : string) :
  includes (String a EmptyString) (String c s) = false ->
  Ascii.eqb a c = false /\ includes (String a EmptyString) s = false.
Proof.
  cbn [includes]. rewrite startsWith_char.
  destruct (Ascii.eqb a c); [discriminate|]. intros Hs. split; [reflexivity|exact Hs].
Qed.

Lemma trimStart_idempotent (s : string) : trimStart (trimStart s) = trimStart s.
Proof.
  induction s as [|c s IH]; [reflexivity|]. cbn [trimStart].
  destruct (isSpace c) eqn:Hc; [exact IH|]. cbn [trimStart]. rewrite Hc. reflexivity.
Qed.

Lemma trim_trimStart (s : string) : trim (trimStart s) = trim s.
Proof. unfold trim. rewrite trimStart_idempotent. reflexivity. Qed.

Lemma spanSpace_cons (c : ascii) (s : string) :
  spanSpace (String c s)
  = if isSpace c then (S (fst (spanSpace s)), snd (spanSpace s))
    else (O, String c s).
Proof.
  cbn [spanSpace]. destruct (isSpace c); [|reflexivity].
  destruct (spanSpace s); reflexivity.
Qed.

Lemma spanSpace_trimStart (s : string) : snd (spanSpace s) = trimStart s.
Proof.
  induction s as [|c s IH]; [reflexivity|].
  rewrite spanSpace_cons. cbn [trimStart]. destruct (isSpace c); [exact IH|reflexivity].
Qed.

End TextFacts.

Section EqualsFirst.
Import QueryParser.

Lemma reOp_none (lit s : string) :
  stripPrefix false lit (snd (spanSpace s)) = None -> reOp lit s = None.
Proof.
  unfold reOp. destruct (spanSpace s) as [k r]. cbn [snd].
  intros ->. reflexivity.
Qed.

(** Before the first [=] of a text the pattern of [=] finds nothing, when
    the character in front of that [=] is neither white space nor [=]. *)
Lemma reOp_eq_before (F rest : string) (x : ascii) :
  includes "=" F = false -> isSpace x = false -> Ascii.eqb "=" x = false ->
  reOp "=" (F +:+ String x rest) = None.
Proof.
  intros HF Hx Hne. apply reOp_none.
  induction F as [|c F IH].
  - rewrite append_empty, spanSpace_cons, Hx. cbn [snd stripPrefix].
    rewrite Hne. reflexivity.
  - apply includes_char_cons in HF as [Hc HF].
    rewrite append_cons, spanSpace_cons.
    destruct (isSpace c); cbn [snd]; [exact (IH HF)|].
    cbn [stripPrefix]. rewrite Hc. reflexivity.
Qed.

Lemma reOp_eq_absent (s : string) :
  includes "=" s = false -> reOp "=" s = None.
Proof.
  intros Hs. apply reOp_none.
  induction s as [|c s IH]; [reflexivity|].
  apply includes_char_cons in Hs as [Hc Hs].
  rewrite spanSpace_cons.
  destruct (isSpace c); cbn [snd]; [exact (IH Hs)|].
  cbn [stripPrefix]. rewrite Hc. reflexivity.
Qed.

Lemma splitRe_eq_absent (s acc : string) :
  includes "=" s = false ->
  splitRe (reOp "=") O acc s = [reverse acc +:+ s].
Proof.
  revert acc. induction s as [|c s IH]; intros acc Hs.
  - cbn [splitRe]. unfold reverse. rewrite rev_acc_append. reflexivity.
  - cbn [splitRe]. rewrite (reOp_eq_absent _ Hs).
    apply includes_char_cons in Hs as [_ Hs].
    rewrite (IH _ Hs), reverse_cons, append_assoc. reflexivity.
Qed.

Lemma splitRe_eq_before (F rest acc : string) (x : ascii) :
  includes "=" F = false -> isSpace x = false -> Ascii.eqb "=" x = false ->
  splitRe (reOp "=") O acc (F +:+ String x rest)
  = splitRe (reOp "=") O (String x (rev_acc F acc)) rest.
Proof.
  intros HF Hx Hne. revert acc. induction F as [|c F IH]; intros acc.
  - pose proof (reOp_eq_before EmptyString rest x eq_refl Hx Hne) as E.
    rewrite append_empty in *. cbn [splitRe]. rewrite E. reflexivity.
  - pose proof (reOp_eq_before (String c F) rest x HF Hx Hne) as E.
    rewrite append_cons in *. cbn [splitRe]. rewrite E.
    apply includes_char_cons in HF as [_ HF].
    rewrite (IH HF). reflexivity.
Qed.

(** Passing over the white space that a match has taken. *)
Lemma splitRe_skip_spaces (re : Pattern) (s acc : string) :
  splitRe re (fst (spanSpace s)) acc s = splitRe re O acc (snd (spanSpace s)).
Proof.
  induction s as [|c s IH]; [reflexivity|].
  rewrite spanSpace_cons. destruct (isSpace c); cbn [fst snd]; [|reflexivity].
  cbn [splitRe]. exact IH.
Qed.

Lemma trimStart_includes (p s : string) :
  includes p s = false -> includes p (trimStart s) = false.
Proof.
  induction s as [|c s IH]; [auto|]. intros Hs. cbn [trimStart].
  destruct (isSpace c); [|exact Hs].
  apply IH. cbn [includes] in Hs.
  destruct (startsWith p (String c s)); [discriminate|exact Hs].
Qed.

Lemma reOp_eq_at (V : string) :
  reOp "=" (String "=" V) = Some (S (fst (spanSpace V))).
Proof.
  unfold reOp. cbn [spanSpace isSpace]. 
  change (isSpace "=") with false. cbv iota.
  cbn [stripPrefix]. change (Ascii.eqb "=" "=") with true. cbv iota.
  destruct (spanSpace V) as [t r]. reflexivity.
Qed.

Lemma split_at_equals (F V : string) (x : ascii) :
  includes "=" F = false -> includes "=" V = false ->
  isSpace x = false -> Ascii.eqb "=" x = false ->
  split (reOp "=") (F +:+ String x (String "=" V))
  = [F +:+ String x EmptyString; trimStart V].
Proof.
  intros HF HV Hx Hne. unfold split.
  rewrite (splitRe_eq_before F _ EmptyString x HF Hx Hne).
  cbn [splitRe]. rewrite reOp_eq_at.
  rewrite splitRe_skip_spaces, spanSpace_trimStart.
  rewrite (splitRe_eq_absent _ _ (trimStart_includes _ _ HV)).
  rewrite reverse_cons, reverse_rev_acc.
  reflexivity.
Qed.

Lemma testRe_later (re : Pattern) (a s : string) (n : nat) :
  re s = Some n -> testRe re (a +:+ s) = true.
Proof.
  intros Hs. induction a as [|c a IH].
  - rewrite append_empty. destruct s; cbn [testRe]; rewrite Hs; reflexivity.
  - rewrite append_cons. cbn [testRe].
    destruct (re (String c (a +:+ s))); [reflexivity|exact IH].
Qed.

(** The first operator whose pattern splits the clause in two decides. *)
Lemma parseFilterFrom_head (o : QueryOperator) (rest : list QueryOperator)
    (s p0 p1 : string) :
  testRe (opRegex o) s = true ->
  split (opRegex o) s = [p0; p1] ->
  parseFilterFrom (o :: rest) s
  = Some {| field := trim p0; operator := o;
            value := parseValue (trim p1); logic := None |}.
Proof.
  intros Ht Hs. lazy beta iota zeta delta [parseFilterFrom].
  rewrite Ht, Hs. reflexivity.
Qed.

(** One step of the inline-connective loops. *)
Lemma pushParts_cons (joiner : BooleanLogic) (first : bool)
    (cur : option BooleanLogic) (part : string) (rest : list string)
    (q : ParsedQuery) :
  pushParts joiner first cur (part :: rest) q
  = pushParts joiner false cur rest
      (match parseFilter (trim (stripWhere part)) with
       | Some f => pushFilter q f (if first then cur else Some joiner)
       | None => q
       end).
Proof. lazy beta iota zeta delta [pushParts]. reflexivity. Qed.

(** A clause with one [=] in it, directly after a character that is not
    white space, is an equality: the field is the text before the [=],
    that character included. *)
Lemma parseFilter_equals_first (F V : string) (x : ascii) :
  includes "=" F = false -> includes "=" V = false ->
  isSpace x = false -> Ascii.eqb "=" x = false ->
  parseFilter (F +:+ String x (String "=" V))
  = Some {| field := trim (F +:+ String x EmptyString); operator := EQUALS;
            value := parseValue (trim V); logic := None |}.
Proof.
  intros HF HV Hx Hne. rewrite <- (trim_trimStart V).
  apply (parseFilterFrom_head EQUALS).
  - change (opRegex EQUALS) with (reOp "=").
    change (F +:+ String x (String "=" V))
      with (F +:+ (String x EmptyString +:+ String "=" V)).
    rewrite <- append_assoc. exact (testRe_later _ _ _ _ (reOp_eq_at V)).
  - change (opRegex EQUALS) with (reOp "=").
    exact (split_at_equals F V x HF HV Hx Hne).
Qed.

End EqualsFirst.

(* ===================================================================== *)
(** ** Date filters with an ordering operator (C1) *)
(* ===================================================================== *)

Section DateFilterFacts.
Import Engine.

Lemma date_field_is_not_special (fld : string) :
  endsWith "_date" fld = true ->
  String.eqb fld "status" = false /\ String.eqb fld "tags" = false.
Proof.
  intros Hd. split.
  - destruct (String.eqb_spec fld "status") as [->|]; [discriminate|reflexivity].
  - destruct (String.eqb_spec fld "tags") as [->|]; [discriminate|reflexivity].
Qed.

(** The clause of a date filter with an ordering operator names the
    attribute only: neither the operator nor the value are part of it. *)
Lemma ordering_date_clause (clock : Z) (f : FilterCondition) (fld v : string) :
  QueryParser.normalizeFieldName (field f) = Some fld ->
  endsWith "_date" fld = true ->
  isOrdering (operator f) = true ->
  firstValue f = Some v ->
  buildFilterClause clock f
  = Some (like ("custom-task-" +:+ replaceChar "_" "-" fld)).
Proof.
  intros Hn Hd Ho Hv. unfold buildFilterClause. rewrite Hn.
  destruct (date_field_is_not_special fld Hd) as [-> ->]. rewrite Hd.
  unfold buildDateFilter. rewrite Hv.
  destruct (operator f); try discriminate; reflexivity.
Qed.

(** When the clauses of a list of filters compile, each of them does. *)
Lemma buildFilterClauses_each (clock : Z) (fs : list FilterCondition) :
  forall first clauses,
  buildFilterClauses clock first fs = Some clauses ->
  forall f, In f fs -> exists clause, buildFilterClause clock f = Some clause
                                      /\ In clause clauses.
Proof.
  induction fs as [|g rest IH]; intros first clauses Hc f Hin; [destruct Hin|].
  simpl in Hc.
  destruct (buildFilterClause clock g) as [cg|] eqn:Hg; [|discriminate].
  destruct (buildFilterClauses clock false rest) as [more|] eqn:Hm; [|discriminate].
  injection Hc as <-.
  destruct Hin as [<-|Hin].
  - exists cg. split; [exact Hg|]. apply in_or_app. right. left. reflexivity.
  - destruct (IH false more Hm f Hin) as (c & Hc & Hcin).
    exists c. split; [exact Hc|]. apply in_or_app. right. right. exact Hcin.
Qed.

Lemma compileToSQL_where (clock : Z) (q : ParsedQuery) (sql : string) :
  compileToSQL clock q = Some sql ->
  exists clauses,
    buildFilterClauses clock true (filters q) = Some clauses
    /\ sql = join " "
               (["SELECT * FROM blocks";
                 "WHERE " +:+ join " " ("(ial LIKE '%custom-task-id%')" :: clauses)]
                ++ (if (0 <? length (sorts q))%nat
                    then ["ORDER BY " +:+ join ", " (map buildSortClause (sorts q))]
                    else [])
                ++ limitPart (limit q)).
Proof.
  unfold compileToSQL, buildWhereClauses.
  destruct (buildFilterClauses clock true (filters q)) as [clauses|];
    [|discriminate].
  simpl. intros [= <-]. exists clauses. split; reflexivity.
Qed.

(** Every clause of a filter is one pattern test on the attribute text. *)
Lemma buildFilterClause_pattern (clock : Z) (f : FilterCondition) (clause : string) :
  buildFilterClause clock f = Some clause ->
  exists p, clause = like p \/ clause = notLike p.
Proof.
  unfold buildFilterClause, buildStatusFilter, buildTagsFilter, buildDateFilter,
    buildAttrFilter.
  destruct (QueryParser.normalizeFieldName (field f)) as [fld|]; [|discriminate].
  destruct (String.eqb fld "status"); [|destruct (String.eqb fld "tags");
    [|destruct (endsWith "_date" fld)]];
    destruct (firstValue f); destruct (operator f); cbn [option_map];
    intros [= <-]; eexists; first [left; reflexivity | right; reflexivity].
Qed.

(** The clauses of a list of filters: for each filter a connective and a
    pattern test. *)
Lemma buildFilterClauses_shape (clock : Z) (fs : list FilterCondition) :
  forall first clauses,
  buildFilterClauses clock first fs = Some clauses ->
  length clauses = (2 * length fs)%nat
  /\ Forall (fun c => c = "AND"%string \/ c = "OR"%string \/ c = "AND NOT"%string
                      \/ exists p, c = like p \/ c = notLike p) clauses.
Proof.
  induction fs as [|g rest IH]; intros first clauses Hc.
  - injection Hc as <-. split; [reflexivity|constructor].
  - simpl in Hc.
    destruct (buildFilterClause clock g) as [cg|] eqn:Hg; [|discriminate].
    destruct (buildFilterClauses clock false rest) as [more|] eqn:Hm; [|discriminate].
    injection Hc as <-.
    destruct (IH false more Hm) as [Hlen Hall].
    destruct (buildFilterClause_pattern _ _ _ Hg) as (p & Hp).
    assert (Hconn : exists c, connective first (logic g) = [c]
                              /\ (c = "AND"%string \/ c = "OR"%string
                                  \/ c = "AND NOT"%string)).
    { destruct first, (logic g) as [[| |]|]; eexists; (split; [reflexivity|]); auto. }
    destruct Hconn as (c & -> & Hc).
    split.
    + cbn [app length]. rewrite Hlen. cbn [length]. lia.
    + cbn [app]. constructor; [tauto|]. constructor; [|exact Hall].
      right. right. right. exists p. exact Hp.
Qed.

End DateFilterFacts.


(** The attribute that the clause of a date filter names is not the one
    hydration reads: [due] is stored as [custom-task-due], the clause asks
    for [custom-task-due-date].  On the three-record store, where every
    record is due after 2025-12-31, the filter [due > 2025-12-31] returns
    no record. *)
Remark date_clause_names_another_attribute :
  Runs.callsOf DateScenario.runOnThree
  = [SqlCall "SELECT * FROM blocks WHERE (ial LIKE '%custom-task-id%') AND (ial LIKE '%custom-task-due-date%')"]
  /\ fst (fst (fst DateScenario.runOnThree)) = Ok [].
Proof. split; vm_compute; reflexivity. Qed.

Section NoRefinePass.
Context {Env : Type} `{Host Env}.
Import Engine.

(** A successful call that went to the record source returns the
    hydrated candidates of its one narrowing call and nothing else: the
    statement is the compiled query, the tasks are what hydration makes of
    the rows, in the order of the rows. *)
Lemma executeQuery_returns_candidates (eng eng' : QueryEngine) (q : string)
    (useCache : bool) (env env' : Env) (tasks : list TaskData)
    (calls : list Call) :
  executeQuery eng q useCache env = (Ok tasks, eng', env', calls) ->
  calls <> [] ->
  exists sql results env1,
    compileToSQL (today env) (QueryParser.parse q) = Some sql
    /\ calls = SqlCall sql :: map (fun r => AttrsCall (id r)) results
    /\ querySQL sql env = (Some results, env1)
    /\ tasks = fst (fst (resultsToTasks results env1))
    /\ map source_block_id tasks `sublist_of` map id results.
Proof.
  intros Hrun Hcalls.
  apply executeQuery_ok_inv in Hrun as [(_ & _ & _ & _ & ->) | (_ & Hdone)];
    [congruence|].
  destruct Hdone as (sql & results & env1 & Hsql & Hq & Hres & -> & _).
  exists sql, results, env1.
  assert (Ht : tasks = fst (fst (resultsToTasks results env1)))
    by (rewrite Hres; reflexivity).
  repeat split; auto.
  rewrite Ht. apply resultsToTasks_sublist.
Qed.

End NoRefinePass.

(** The list form of an ordering operator with [=] on the three-record
    store: [due <= 2026-12-31], which every record satisfies, is read as an
    equality on the field [due <] and returns no record. *)
Remark ordering_with_equals_is_an_equality :
  filters (QueryParser.parse DateScenario.dueUpTo2026)
  = [{| field := "due <"; operator := EQUALS;
        value := Scalar "2026-12-31"; logic := None |}]
  /\ Runs.callsOf DateScenario.runUpTo2026
     = [SqlCall ("SELECT * FROM blocks WHERE (ial LIKE '%custom-task-id%') AND (ial LIKE '%custom-task-due <="
                 +:+ DQ +:+ "2026-12-31" +:+ DQ +:+ "%')")]
  /\ fst (fst (fst DateScenario.runUpTo2026)) = Ok [].
Proof. repeat split; vm_compute; reflexivity. Qed.



(* ===================================================================== *)
(** ** Sorting (C8) *)
(* ===================================================================== *)

Section SortFacts.
Import QueryParser.

Lemma reSpaces_word (c : ascii) (s : string) :
  isSpace c = false -> reSpaces (String c s) = None.
Proof. intros Hc. unfold reSpaces. rewrite spanSpace_cons, Hc. reflexivity. Qed.

Lemma splitRe_word (w s acc : string) :
  noSpace w = true ->
  splitRe reSpaces O acc (w +:+ s) = splitRe reSpaces O (rev_acc w acc) s.
Proof.
  revert acc. induction w as [|c w IH]; intros acc Hw; [reflexivity|].
  cbn [noSpace] in Hw. apply andb_prop in Hw as [Hc Hw].
  apply negb_true_iff in Hc.
  rewrite append_cons. cbn [splitRe]. rewrite (reSpaces_word _ _ Hc).
  exact (IH _ Hw).
Qed.

Lemma splitRe_word_end (w rest acc : string) :
  noSpace w = true -> endsWord rest = true ->
  exists more,
    splitRe reSpaces O acc (w +:+ rest) = (reverse acc +:+ w) :: more.
Proof.
  intros Hw Hrest. rewrite (splitRe_word _ _ _ Hw).
  destruct rest as [|c rest]; cbn [splitRe].
  - exists []. rewrite reverse_rev_acc. reflexivity.
  - cbn [endsWord] in Hrest. unfold reSpaces. rewrite spanSpace_cons, Hrest.
    eexists. rewrite reverse_rev_acc. reflexivity.
Qed.

Lemma spanSpace_run (sp t : string) :
  allSpace sp = true -> endsWord t = false ->
  spanSpace (sp +:+ t) = (String.length sp, t).
Proof.
  intros Hsp Ht. induction sp as [|c sp IH].
  - rewrite append_empty. destruct t as [|d t]; [discriminate|].
    cbn [endsWord] in Ht. rewrite spanSpace_cons, Ht. reflexivity.
  - cbn [allSpace] in Hsp. apply andb_prop in Hsp as [Hc Hsp].
    rewrite append_cons, spanSpace_cons, Hc, (IH Hsp). reflexivity.
Qed.

Lemma splitRe_skip (re : Pattern) (x t acc : string) :
  splitRe re (String.length x) acc (x +:+ t) = splitRe re O acc t.
Proof.
  induction x as [|c x IH]; [destruct t; reflexivity|].
  rewrite append_cons. cbn [String.length splitRe]. exact IH.
Qed.

Lemma word_start (w rest : string) :
  noSpace w = true -> w <> EmptyString -> endsWord (w +:+ rest) = false.
Proof.
  intros Hw Hne. destruct w as [|c w]; [congruence|].
  cbn [noSpace] in Hw. apply andb_prop in Hw as [Hc _].
  apply negb_true_iff in Hc. exact Hc.
Qed.

Lemma noSpace_rev_acc (w acc : string) :
  noSpace w = true -> noSpace acc = true -> noSpace (rev_acc w acc) = true.
Proof.
  revert acc. induction w as [|c w IH]; intros acc Hw Hacc; [exact Hacc|].
  cbn [noSpace] in Hw. apply andb_prop in Hw as [Hc Hw].
  cbn [rev_acc]. apply IH; [exact Hw|]. cbn [noSpace]. rewrite Hc, Hacc. reflexivity.
Qed.

Lemma trimStart_word (w : string) : noSpace w = true -> trimStart w = w.
Proof.
  destruct w as [|c w]; [reflexivity|]. cbn [noSpace trimStart].
  destruct (isSpace c); [discriminate|reflexivity].
Qed.

Lemma trim_word (w : string) : noSpace w = true -> trim w = w.
Proof.
  intros Hw. unfold trim, trimEnd. rewrite (trimStart_word _ Hw).
  rewrite trimStart_word; [apply reverse_involutive|].
  apply noSpace_rev_acc; [exact Hw|reflexivity].
Qed.

(** [parseSort] reads the first two words and nothing after them. *)
Lemma parseSort_one_word (w : string) :
  noSpace w = true ->
  parseSort w = Some {| sort_field := w; direction := ASC |}.
Proof.
  intros Hw. unfold parseSort, split.
  pose proof (splitRe_word w EmptyString EmptyString Hw) as E.
  replace (w +:+ EmptyString) with w in E
    by (clear; induction w as [|c w IH]; [reflexivity|rewrite append_cons, <- IH; reflexivity]).
  rewrite E. cbn [splitRe]. rewrite reverse_rev_acc.
  change (reverse EmptyString +:+ w) with w. rewrite (trim_word _ Hw). reflexivity.
Qed.

Lemma parseSort_two_words (w1 sp w2 rest : string) :
  noSpace w1 = true -> allSpace sp = true -> sp <> EmptyString ->
  noSpace w2 = true -> w2 <> EmptyString -> endsWord rest = true ->
  parseSort (w1 +:+ sp +:+ w2 +:+ rest)
  = Some {| sort_field := w1;
            direction := if String.eqb (toLowerCase w2) "desc" then DESC else ASC |}.
Proof.
  intros Hw1 Hsp Hne Hw2 Hne2 Hrest. unfold parseSort, split.
  rewrite (splitRe_word _ _ _ Hw1).
  destruct sp as [|c sp]; [congruence|].
  cbn [allSpace] in Hsp. apply andb_prop in Hsp as [Hc Hsp].
  rewrite append_cons. cbn [splitRe].
  unfold reSpaces at 1. rewrite spanSpace_cons, Hc.
  rewrite (spanSpace_run sp (w2 +:+ rest) Hsp (word_start _ _ Hw2 Hne2)).
  cbn [fst snd]. rewrite splitRe_skip.
  destruct (splitRe_word_end w2 rest EmptyString Hw2 Hrest) as (more & ->).
  rewrite reverse_rev_acc.
  change (reverse EmptyString +:+ w1) with w1.
  change (reverse EmptyString +:+ w2) with w2.
  rewrite (trim_word _ Hw1). reflexivity.
Qed.

Lemma pushParts_sorts (joiner : BooleanLogic) (cur : option BooleanLogic)
    (parts : list string) :
  forall first q, sorts (pushParts joiner first cur parts q) = sorts q.
Proof.
  induction parts as [|p parts IH]; intros first q; [reflexivity|].
  rewrite pushParts_cons, IH.
  generalize (parseFilter (trim (stripWhere p))). intros [f|]; reflexivity.
Qed.

Lemma stripPrefix_exact (p s r : string) :
  stripPrefix false p s = Some r -> s = p +:+ r.
Proof.
  revert s. induction p as [|a p IH]; intros s Hs.
  - cbn [stripPrefix] in Hs. injection Hs as ->. reflexivity.
  - destruct s as [|b s]; [discriminate|]. cbn [stripPrefix] in Hs.
    destruct (Ascii.eqb_spec a b) as [->|]; [|discriminate].
    rewrite (IH _ Hs). reflexivity.
Qed.

Lemma startsWith_exact (p s : string) :
  startsWith p s = true -> exists r, s = p +:+ r.
Proof.
  unfold startsWith. destruct (stripPrefix false p s) as [r|] eqn:Hs; [|discriminate].
  intros _. exists r. exact (stripPrefix_exact _ _ _ Hs).
Qed.

(** What a line adds to the sort conditions. *)
Lemma parseLine_sorts (st : ParseState) (line : string) :
  sorts (query (parseLine st line))
  = sorts (query st) ++ match sortOfLine line with Some s => [s] | None => [] end.
Proof.
  unfold parseLine, sortOfLine.
  destruct (startsWith "sort by " (toLowerCase line)) eqn:Hs.
  - destruct (startsWith_exact _ _ Hs) as (r & Hr). rewrite Hr.
    change (String.eqb ("sort by " +:+ r) "tasks") with false.
    change (startsWith "where " ("sort by " +:+ r)) with false.
    change (String.eqb ("sort by " +:+ r) "and") with false.
    change (String.eqb ("sort by " +:+ r) "or") with false.
    change (String.eqb ("sort by " +:+ r) "not") with false.
    change (startsWith "sort by " ("sort by " +:+ r)) with true.
    cbv iota.
    destruct (includes " and " ("sort by " +:+ r));
      [cbn [query andb negb]; rewrite pushParts_sorts, app_nil_r; reflexivity|].
    destruct (includes " or " ("sort by " +:+ r));
      [cbn [query andb negb]; rewrite pushParts_sorts, app_nil_r; reflexivity|].
    cbn [andb negb].
    destruct (parseSort (trim (substringFrom 8 line)));
      [reflexivity|rewrite app_nil_r; reflexivity].
  - cbn [andb]. rewrite app_nil_r.
    repeat match goal with
           | |- context [if ?b then _ else _] => destruct b
           | |- context [match ?x with Some _ => _ | None => _ end] => destruct x
           end;
      cbn [query pushFilter setLimit sorts]; rewrite ?pushParts_sorts; reflexivity.
Qed.

Lemma parseLines_sorts (lines : list string) (st : ParseState) :
  sorts (query (fold_left parseLine lines st))
  = sorts (query st) ++ omap sortOfLine lines.
Proof.
  revert st. induction lines as [|l lines IH]; intros st.
  - cbn. rewrite app_nil_r. reflexivity.
  - cbn [fold_left]. rewrite IH, parseLine_sorts.
    rewrite <- app_assoc. f_equal.
    cbn [omap list_omap]. destruct (sortOfLine l); reflexivity.
Qed.

Lemma parse_sorts (queryString : string) :
  sorts (parse queryString) = omap sortOfLine (queryLines queryString).
Proof. unfold parse. rewrite parseLines_sorts. reflexivity. Qed.

End SortFacts.


(** The column and the direction of an ORDER BY term: [content] for the
    field [description], [created] for every other field. *)
Lemma buildSortClause_column (s : SortCondition) :
  Engine.buildSortClause s
  = (if match QueryParser.normalizeFieldName (sort_field s) with
        | Some fld => String.eqb fld "description"
        | None => false
        end
     then "content " else "created ")
    +:+ (match direction s with DESC => "DESC" | ASC => "ASC" end).
Proof.
  unfold Engine.buildSortClause.
  destruct (QueryParser.normalizeFieldName (sort_field s)) as [fld|];
    [destruct (String.eqb fld "description")|]; reflexivity.
Qed.

(** The list form of the grammar, [sort by due desc, priority asc], is one
    condition: the field [due], ascending, since the second word of the
    line is [desc,]. *)
Remark sort_list_is_one_condition :
  sorts (QueryParser.parse SortScenario.byDueThenPriority)
  = [{| sort_field := "due"; direction := ASC |}]
  /\ Runs.callsOf SortScenario.listRun
     = [SqlCall "SELECT * FROM blocks WHERE (ial LIKE '%custom-task-id%') ORDER BY created ASC";
        AttrsCall "20260105-aaa"; AttrsCall "20260106-bbb"].
Proof. split; vm_compute; reflexivity. Qed.



(* ===================================================================== *)
(** ** The end-to-end example (C2) *)
(* ===================================================================== *)

(** C2 (the source departs from the specification).  At the clock 2026-01-25 the
    expression [today + 7d] does resolve to 2026-02-01, but the query of
    the example is not parsed as written: [status != done] is split at its
    [=] into an EQUALS filter on the field [status !], and the line
    [and due <= today + 7d] matches no branch of the loop and is dropped.
    The statement sent to the record source asks for an attribute
    [custom-task-status !] with the value [done], which no record has:
    the call returns no record at all instead of the one due on
    2026-01-26. *)
Theorem end_to_end_example_returns_nothing :
  QueryParser.parseQueryDate Scenario.day_2026_01_25 "today + 7d" = "2026-02-01"
  /\ QueryParser.parse Scenario.endToEndQuery
     = {| filters := [{| field := "status !"; operator := EQUALS;
                         value := Scalar "done"; logic := None |}];
          sorts := [{| sort_field := "due"; direction := ASC |}];
          limit := Some 50 |}
  /\ Runs.callsOf EndToEnd.endToEndRun
     = [SqlCall ("SELECT * FROM blocks WHERE (ial LIKE '%custom-task-id%') AND (ial LIKE '%custom-task-status !="
                 +:+ DQ +:+ "done" +:+ DQ
                 +:+ "%') ORDER BY created ASC LIMIT 50")]
  /\ fst (fst (fst EndToEnd.endToEndRun)) = Ok [].
Proof. repeat split; vm_compute; reflexivity. Qed.

(* ===================================================================== *)
(** ** Validation and the execution path (C4) *)
(* ===================================================================== *)

Section ExecutionPath.
Context {Env : Type} `{Host Env}.

(** [handleQueryExecute] hands the query to [executeQuery] without asking
    [validateQuery]: whenever the cache has no fresh entry and the query
    compiles, the narrowing call is made, whatever the verdict of the
    validation would have been and whether or not the deadline is lost. *)
Lemma handleQueryExecute_calls_source (p : SiYuanTasksPlugin) (query : string)
    (deadlineLost : bool) (env : Env) (sql : string) :
  let filteredQuery :=
    GlobalFilterService.appendToQuery (globalFilterService p) query in
  Engine.cacheRead (queryEngine p) filteredQuery env = None ->
  Engine.compileToSQL (today env) (QueryParser.parse filteredQuery) = Some sql ->
  exists rest, snd (Plugin.handleQueryExecute p query deadlineLost env)
               = SqlCall sql :: rest.
Proof.
  intros fq Hmiss Hsql. unfold Plugin.handleQueryExecute.
  fold fq. unfold Engine.executeQuery. rewrite Hmiss, Hsql.
  destruct (querySQL sql env) as [[results|] env1].
  - destruct (Engine.resultsToTasks results env1) as [[tasks env2] calls].
    exists calls.
    destruct (Plugin.executeWithTimeout deadlineLost (Ok tasks)) as [ts|e];
      [destruct (GlobalFilterService.filterTasks _ ts)|]; reflexivity.
  - exists []. destruct deadlineLost; reflexivity.
Qed.

End ExecutionPath.

(** C4 (the source departs from the specification).  Both kinds of query that
    [validateQuery] rejects are executed by [handleQueryExecute]: the
    record source receives the narrowing statement, and for the query
    without filter and limit every record of the store is fetched and
    returned. *)
Theorem invalid_query_reaches_record_source :
  QueryOptimizer.validateQuery (QueryParser.parse InvalidQueries.unbounded)
  = {| valid := false;
       error := Some "Query without filters must have a limit to prevent performance issues" |}
  /\ snd InvalidQueries.runUnbounded
     = [SqlCall "SELECT * FROM blocks WHERE (ial LIKE '%custom-task-id%')";
        AttrsCall "20260105-aaa"; AttrsCall "20260106-bbb";
        AttrsCall "20260107-ccc"]
  /\ InMemorySource.sql_calls (snd (fst InvalidQueries.runUnbounded)) = 1%nat
  /\ (exists tasks, fst (fst (fst InvalidQueries.runUnbounded)) = Ok tasks
                    /\ length tasks = 3%nat)
  /\ QueryOptimizer.validateQuery (QueryParser.parse InvalidQueries.longList)
     = {| valid := false;
          error := Some "Filter with more than 100 values may cause performance issues" |}
  /\ snd InvalidQueries.runLongList
     = [SqlCall ("SELECT * FROM blocks WHERE (ial LIKE '%custom-task-id%') AND (ial LIKE '%custom-task-tags="
                 +:+ DQ +:+ "%x%" +:+ DQ +:+ "%')")]
  /\ InMemorySource.sql_calls (snd (fst InvalidQueries.runLongList)) = 1%nat.
Proof.
  repeat split; try (vm_compute; reflexivity).
  eexists. split; vm_compute; reflexivity.
Qed.

(* ===================================================================== *)
(** ** Lines of a query text *)
(* ===================================================================== *)

Section LineFacts.
Import QueryParser.

Lemma splitChar_app (sep : ascii) (a b acc : string) :
  splitChar sep acc (a +:+ String sep b)
  = splitChar sep acc a ++ splitChar sep EmptyString b.
Proof.
  revert acc. induction a as [|c a IH]; intros acc; simpl.
  - rewrite Ascii.eqb_refl. reflexivity.
  - destruct (Ascii.eqb c sep); simpl; rewrite IH; reflexivity.
Qed.

(** A text without the separator is one piece. *)
Lemma splitChar_single (sep : ascii) (s acc : string) :
  includes (String sep EmptyString) s = false ->
  splitChar sep acc s = [reverse acc +:+ s].
Proof.
  revert acc. induction s as [|c s IH]; intros acc Hno; simpl.
  - unfold reverse. rewrite rev_acc_append. reflexivity.
  - cbn [includes] in Hno. rewrite startsWith_char in Hno.
    rewrite (Ascii.eqb_sym c sep).
    destruct (Ascii.eqb sep c); [discriminate|].
    rewrite IH by exact Hno.
    unfold reverse. simpl. rewrite !rev_acc_append. reflexivity.
Qed.

Lemma queryLines_app (a b : string) :
  queryLines (a +:+ Scenario.nl +:+ b) = queryLines a ++ queryLines b.
Proof.
  unfold queryLines.
  change (Scenario.nl +:+ b) with (String "010" b).
  rewrite splitChar_app, map_app, List.filter_app. reflexivity.
Qed.

End LineFacts.

Section ParseComposition.
Import QueryParser.

(** [parse] works line by line: the lines after a line break continue from
    the state that the lines before it have reached. *)
Lemma parse_app (a b : string) :
  parse (a +:+ Scenario.nl +:+ b)
  = query (fold_left parseLine (queryLines b)
             (fold_left parseLine (queryLines a) initialState)).
Proof.
  unfold parse. rewrite queryLines_app, fold_left_app. reflexivity.
Qed.

Lemma skipped_line (c : string) (st : ParseState) :
  includes Scenario.nl c = false ->
  skipped c ->
  fold_left parseLine (queryLines c) st = st.
Proof.
  intros Hnl Hskip. unfold queryLines.
  rewrite (splitChar_single "010" c EmptyString Hnl).
  change (reverse EmptyString +:+ c) with c. simpl map. simpl List.filter.
  destruct Hskip as [He | [Hc | Ht]].
  - rewrite He. reflexivity.
  - rewrite Hc, andb_false_r. reflexivity.
  - destruct (trim c) as [|ch r] eqn:Hline; [discriminate|].
    assert (Hhash : startsWith "#" (String ch r) = false).
    { rewrite startsWith_char.
      destruct (Ascii.eqb_spec "#" ch) as [<-|]; [discriminate|reflexivity]. }
    rewrite Hhash. simpl. unfold parseLine. rewrite Ht. reflexivity.
Qed.

End ParseComposition.

(** X1.  An empty line, a comment line or the [tasks] keyword may stand
    anywhere between the lines of a query text (in scope) without changing
    what [parse] returns. *)
Theorem skipped_lines_change_nothing (a b c : string) :
  inScope (a +:+ Scenario.nl +:+ c +:+ Scenario.nl +:+ b) = true ->
  includes Scenario.nl c = false ->
  skipped c ->
  QueryParser.parse (a +:+ Scenario.nl +:+ c +:+ Scenario.nl +:+ b)
  = QueryParser.parse (a +:+ Scenario.nl +:+ b).
Proof.
  intros _ Hnl Hskip.
  rewrite !parse_app. unfold QueryParser.parse.
  rewrite queryLines_app, fold_left_app.
  rewrite (skipped_line c _ Hnl Hskip). reflexivity.
Qed.

Lemma skipped_lines_change_nothing_witness :
  inScope ("tasks" +:+ Scenario.nl +:+ "   # open tasks only "
           +:+ Scenario.nl +:+ "where status = TODO") = true
  /\ includes Scenario.nl "   # open tasks only " = false
  /\ skipped "   # open tasks only "
  /\ QueryParser.parse ("tasks" +:+ Scenario.nl +:+ "   # open tasks only "
                        +:+ Scenario.nl +:+ "where status = TODO")
     = QueryParser.parse ("tasks" +:+ Scenario.nl +:+ "where status = TODO").
Proof.
  assert (Hnl : includes Scenario.nl "   # open tasks only " = false)
    by (vm_compute; reflexivity).
  assert (Hskip : skipped "   # open tasks only ")
    by (right; left; vm_compute; reflexivity).
  assert (Hscope : inScope ("tasks" +:+ Scenario.nl +:+ "   # open tasks only "
                            +:+ Scenario.nl +:+ "where status = TODO") = true)
    by (vm_compute; reflexivity).
  split; [exact Hscope|]. split; [exact Hnl|]. split; [exact Hskip|].
  exact (skipped_lines_change_nothing "tasks" "where status = TODO"
           "   # open tasks only " Hscope Hnl Hskip).
Defined.

Section ParseOrder.
Import QueryParser.

Lemma pushParts_extends (joiner : BooleanLogic) (cur : option BooleanLogic)
    (parts : list string) :
  forall first q,
  filters q `prefix_of` filters (pushParts joiner first cur parts q)
  /\ sorts (pushParts joiner first cur parts q) = sorts q
  /\ limit (pushParts joiner first cur parts q) = limit q.
Proof.
  induction parts as [|part rest IH]; intros first q.
  - split; [reflexivity | split; reflexivity].
  - rewrite pushParts_cons.
    generalize (parseFilter (trim (stripWhere part))). intros [f|].
    + destruct (IH false (pushFilter q f (if first then cur else Some joiner)))
        as (Hf & Hs & Hl).
      split; [|split; [exact Hs | exact Hl]].
      etransitivity; [|exact Hf]. cbn [pushFilter filters].
      apply prefix_app_r. reflexivity.
    + apply IH.
Qed.

(** A line can only add at the end of the lists of filters and of sort
    conditions. *)
Lemma parseLine_extends (st : ParseState) (line : string) :
  filters (query st) `prefix_of` filters (query (parseLine st line))
  /\ sorts (query st) `prefix_of` sorts (query (parseLine st line)).
Proof.
  unfold parseLine.
  repeat match goal with
         | |- context [if ?b then _ else _] => destruct b
         | |- context [match ?o with Some _ => _ | None => _ end] => destruct o
         end;
    cbn [query pushFilter pushSort setLimit filters sorts];
    try (split; reflexivity);
    try (split; [apply prefix_app_r; reflexivity | reflexivity]);
    try (split; [reflexivity | apply prefix_app_r; reflexivity]).
  - destruct (pushParts_extends AND (currentLogic st)
                (split (reWord "and") line) true (query st)) as (Hf & Hs & _).
    rewrite Hs. split; [exact Hf | reflexivity].
  - destruct (pushParts_extends OR (currentLogic st)
                (split (reWord "or") line) true (query st)) as (Hf & Hs & _).
    rewrite Hs. split; [exact Hf | reflexivity].
Qed.

Lemma parseLines_extend (lines : list string) (st : ParseState) :
  filters (query st) `prefix_of` filters (query (fold_left parseLine lines st))
  /\ sorts (query st) `prefix_of` sorts (query (fold_left parseLine lines st)).
Proof.
  revert st. induction lines as [|line rest IH]; intros st; simpl.
  - split; reflexivity.
  - destruct (parseLine_extends st line) as [Hf Hs].
    destruct (IH (parseLine st line)) as [Hf' Hs'].
    split; etransitivity; eauto.
Qed.

End ParseOrder.

(** X2.  Lines added at the end of a query text (in scope) never remove,
    change or reorder what the lines before them produced: the filters and
    the sort conditions of the shorter text are the first filters and sort
    conditions of the longer one. *)
Theorem later_lines_only_append (a b : string) :
  inScope (a +:+ Scenario.nl +:+ b) = true ->
  filters (QueryParser.parse a)
    `prefix_of` filters (QueryParser.parse (a +:+ Scenario.nl +:+ b))
  /\ sorts (QueryParser.parse a)
       `prefix_of` sorts (QueryParser.parse (a +:+ Scenario.nl +:+ b)).
Proof.
  intros _. rewrite parse_app. apply parseLines_extend.
Qed.

Lemma later_lines_only_append_witness :
  inScope ("where status = TODO" +:+ Scenario.nl +:+ "where tag includes work")
  = true
  /\ filters (QueryParser.parse "where status = TODO")
       `prefix_of` filters (QueryParser.parse
                              ("where status = TODO" +:+ Scenario.nl
                               +:+ "where tag includes work"))
  /\ sorts (QueryParser.parse "where status = TODO")
       `prefix_of` sorts (QueryParser.parse
                            ("where status = TODO" +:+ Scenario.nl
                             +:+ "where tag includes work")).
Proof.
  assert (Hscope : inScope ("where status = TODO" +:+ Scenario.nl
                            +:+ "where tag includes work") = true)
    by (vm_compute; reflexivity).
  split; [exact Hscope|].
  exact (later_lines_only_append "where status = TODO" "where tag includes work"
           Hscope).
Defined.

(** X3.  A line that begins with the connective and a space, [and <clause>]
    or [or <clause>], and holds no further inline connective is dropped:
    it adds no filter and leaves the pending logic marker as it was.  (This
    is the form in which the README writes the second clause of a query
    and in which [appendToQuery] adds the default conditions.) *)
Theorem connective_clause_line_is_dropped (st : QueryParser.ParseState)
    (line : string) :
  inScope line = true ->
  startsWith "and " (toLowerCase line) = true
  \/ startsWith "or " (toLowerCase line) = true ->
  includes " and " (toLowerCase line) = false ->
  includes " or " (toLowerCase line) = false ->
  QueryParser.parseLine st line = st.
Proof.
  intros _ Hstart Hand Hor. unfold QueryParser.parseLine.
  rewrite Hand, Hor.
  destruct Hstart as [Hs | Hs]; apply startsWith_exact in Hs as (r & ->);
    reflexivity.
Qed.

Lemma connective_clause_line_is_dropped_witness :
  inScope "and due <= today + 7d" = true
  /\ (startsWith "and " (toLowerCase "and due <= today + 7d") = true
   \/ startsWith "or " (toLowerCase "and due <= today + 7d") = true)
  /\ includes " and " (toLowerCase "and due <= today + 7d") = false
  /\ includes " or " (toLowerCase "and due <= today + 7d") = false
  /\ QueryParser.parseLine
       {| QueryParser.query :=
            QueryParser.parse "where status = TODO";
          QueryParser.currentLogic := None |}
       "and due <= today + 7d"
     = {| QueryParser.query := QueryParser.parse "where status = TODO";
          QueryParser.currentLogic := None |}.
Proof.
  assert (H1 : startsWith "and " (toLowerCase "and due <= today + 7d") = true
               \/ startsWith "or " (toLowerCase "and due <= today + 7d") = true)
    by (left; vm_compute; reflexivity).
  assert (H2 : includes " and " (toLowerCase "and due <= today + 7d") = false)
    by (vm_compute; reflexivity).
  assert (H3 : includes " or " (toLowerCase "and due <= today + 7d") = false)
    by (vm_compute; reflexivity).
  assert (H0 : inScope "and due <= today + 7d" = true)
    by (vm_compute; reflexivity).
  split; [exact H0|]. split; [exact H1|]. split; [exact H2|]. split; [exact H3|].
  exact (connective_clause_line_is_dropped _ _ H0 H1 H2 H3).
Defined.

Section ParsedValues.
Import QueryParser.

Lemma splitChar_nonempty (sep : ascii) (s acc : string) :
  (1 <= length (splitChar sep acc s))%nat.
Proof.
  revert acc. induction s as [|c s IH]; intros acc; simpl; [lia|].
  destruct (Ascii.eqb c sep); simpl; [lia | apply IH].
Qed.

Lemma splitChar_two (sep : ascii) (s acc : string) :
  includes (String sep EmptyString) s = true ->
  (2 <= length (splitChar sep acc s))%nat.
Proof.
  revert acc. induction s as [|c s IH]; intros acc Hin.
  - discriminate.
  - cbn [includes] in Hin. rewrite startsWith_char in Hin.
    cbn [splitChar]. rewrite (Ascii.eqb_sym c sep).
    destruct (Ascii.eqb sep c).
    + simpl. pose proof (splitChar_nonempty sep s EmptyString). lia.
    + apply IH. exact Hin.
Qed.

Lemma parseValue_parsed (valueStr : string) : parsedValue (parseValue valueStr).
Proof.
  unfold parseValue.
  destruct (includes "," (stripQuotes valueStr)) eqn:Hc; simpl; [|exact I].
  rewrite length_map. apply splitChar_two. exact Hc.
Qed.

Lemma parseFilterFrom_parsed (ops : list QueryOperator) (s : string)
    (f : FilterCondition) :
  parseFilterFrom ops s = Some f -> parsedValue (value f).
Proof.
  induction ops as [|o rest IH]; [discriminate|].
  cbn [parseFilterFrom].
  destruct (testRe (opRegex o) s); [|exact IH].
  destruct (split (opRegex o) s) as [|p0 [|p1 [|p2 more]]]; try exact IH.
  intros [= <-]. apply parseValue_parsed.
Qed.

Lemma parseFilter_parsed (s : string) (f : FilterCondition) :
  parseFilter s = Some f -> parsedValue (value f).
Proof. apply parseFilterFrom_parsed. Qed.

Lemma pushParts_parsed (joiner : BooleanLogic) (cur : option BooleanLogic)
    (parts : list string) :
  forall first q,
  Forall (fun f => parsedValue (value f)) (filters q) ->
  Forall (fun f => parsedValue (value f))
    (filters (pushParts joiner first cur parts q)).
Proof.
  induction parts as [|part rest IH]; intros first q Hq; [exact Hq|].
  rewrite pushParts_cons.
  pose proof (parseFilter_parsed (trim (stripWhere part))) as Hf.
  revert Hf. generalize (parseFilter (trim (stripWhere part))).
  intros [f|] Hf.
  - apply IH. cbn [pushFilter filters]. apply Forall_app. split; [exact Hq|].
    constructor; [|constructor]. cbn [value]. exact (Hf f eq_refl).
  - apply IH. exact Hq.
Qed.

Lemma parseLine_parsed (st : ParseState) (line : string) :
  Forall (fun f => parsedValue (value f)) (filters (query st)) ->
  Forall (fun f => parsedValue (value f)) (filters (query (parseLine st line))).
Proof.
  intros Hst. unfold parseLine.
  destruct (String.eqb (toLowerCase line) "tasks"); [exact Hst|].
  destruct (startsWith "where " (toLowerCase line)).
  { pose proof (parseFilter_parsed (trim (substringFrom 6 line))) as Hf.
    revert Hf. generalize (parseFilter (trim (substringFrom 6 line))).
    intros [f|] Hf; [|exact Hst].
    cbn [query pushFilter filters]. apply Forall_app. split; [exact Hst|].
    constructor; [|constructor]. cbn [value]. exact (Hf f eq_refl). }
  destruct (String.eqb (toLowerCase line) "and"); [exact Hst|].
  destruct (String.eqb (toLowerCase line) "or"); [exact Hst|].
  destruct (String.eqb (toLowerCase line) "not"); [exact Hst|].
  destruct (includes " and " (toLowerCase line));
    [apply pushParts_parsed; exact Hst|].
  destruct (includes " or " (toLowerCase line));
    [apply pushParts_parsed; exact Hst|].
  destruct (startsWith "sort by " (toLowerCase line));
    [destruct (parseSort _); exact Hst|].
  destruct (startsWith "limit " (toLowerCase line));
    [destruct (parseInt _); exact Hst|].
  exact Hst.
Qed.

Lemma parse_parsed (queryString : string) :
  Forall (fun f => parsedValue (value f)) (filters (parse queryString)).
Proof.
  unfold parse.
  assert (Hgen : forall lines st,
             Forall (fun f => parsedValue (value f)) (filters (query st)) ->
             Forall (fun f => parsedValue (value f))
               (filters (query (fold_left parseLine lines st)))).
  { induction lines as [|line rest IH]; intros st Hst; simpl; [exact Hst|].
    apply IH. apply parseLine_parsed. exact Hst. }
  apply Hgen. constructor.
Qed.

End ParsedValues.

Lemma parsed_filter_value (queryString : string) (f : FilterCondition) :
  In f (filters (QueryParser.parse queryString)) ->
  parsedValue (value f) /\ exists v, Engine.firstValue f = Some v.
Proof.
  intros Hin.
  pose proof (parse_parsed queryString) as Hall.
  rewrite Forall_forall in Hall. 
  assert (Hp : parsedValue (value f)).
  { apply Hall. apply list_elem_of_In. exact Hin. }
  split; [exact Hp|].
  unfold Engine.firstValue. destruct (value f) as [s|[|x l]]; simpl in *; eauto.
  lia.
Qed.

(** X4.  Every filter that [parse] produces from a query text in scope has
    a value to compile: a scalar, or a list of at least two elements,
    never an empty list; so the first value that the clause builders read
    always exists. *)
Theorem parsed_filters_have_a_value (queryString : string) (f : FilterCondition) :
  inScope queryString = true ->
  In f (filters (QueryParser.parse queryString)) ->
  parsedValue (value f) /\ exists v, Engine.firstValue f = Some v.
Proof. intros _. apply parsed_filter_value. Qed.

Lemma parsed_filters_have_a_value_witness :
  inScope "where tag in work, home" = true
  /\ In {| field := "tag"; operator := IN; value := Values ["work"; "home"];
        logic := None |}
     (filters (QueryParser.parse "where tag in work, home"))
  /\ parsedValue (Values ["work"; "home"])
  /\ exists v, Engine.firstValue
                 {| field := "tag"; operator := IN;
                    value := Values ["work"; "home"]; logic := None |} = Some v.
Proof.
  assert (Hin : In {| field := "tag"; operator := IN;
                      value := Values ["work"; "home"]; logic := None |}
                   (filters (QueryParser.parse "where tag in work, home")))
    by (vm_compute; left; reflexivity).
  assert (Hscope : inScope "where tag in work, home" = true)
    by (vm_compute; reflexivity).
  split; [exact Hscope|]. split; [exact Hin|].
  exact (parsed_filters_have_a_value _ _ Hscope Hin).
Defined.

Section CompileFacts.
Import Engine.

(** The two field names that the alias table answers with an inherited
    member instead of a string. *)
Lemma normalizeFieldName_none (fld : string) :
  QueryParser.normalizeFieldName fld = None
  <-> toLowerCase fld = "constructor"%string
      \/ toLowerCase fld = "__proto__"%string.
Proof.
  unfold QueryParser.normalizeFieldName.
  generalize (toLowerCase fld) as k. intros k.
  repeat match goal with
         | |- context [if String.eqb k ?b then _ else _] =>
             destruct (String.eqb_spec k b) as [->|]
         end;
    try (split; [discriminate | intros [Hc|Hc]; discriminate]).
  destruct (String.eqb_spec k "constructor") as [->|Hc];
    [split; auto|].
  destruct (String.eqb_spec k "__proto__") as [->|Hp]; simpl.
  - split; auto.
  - split; [discriminate | intros [?|?]; contradiction].
Qed.

Lemma buildFilterClause_none (clock : Z) (f : FilterCondition) (v : string) :
  firstValue f = Some v ->
  (buildFilterClause clock f = None
   <-> QueryParser.normalizeFieldName (field f) = None).
Proof.
  intros Hv. unfold buildFilterClause.
  destruct (QueryParser.normalizeFieldName (field f)) as [fld|];
    [|split; reflexivity].
  split; [|discriminate].
  unfold buildStatusFilter, buildTagsFilter, buildDateFilter, buildAttrFilter.
  rewrite Hv.
  destruct (String.eqb fld "status"); [discriminate|].
  destruct (String.eqb fld "tags"); [discriminate|].
  destruct (endsWith "_date" fld); [discriminate|].
  destruct (operator f); discriminate.
Qed.

Lemma buildFilterClauses_none (clock : Z) (fs : list FilterCondition) :
  (forall f, In f fs -> exists v, firstValue f = Some v) ->
  forall first,
  buildFilterClauses clock first fs = None
  <-> exists f, In f fs /\ QueryParser.normalizeFieldName (field f) = None.
Proof.
  induction fs as [|g rest IH]; intros Hv first; simpl.
  - split; [discriminate | intros (f & [] & _)].
  - destruct (Hv g (or_introl eq_refl)) as (v & Hg).
    pose proof (buildFilterClause_none clock g v Hg) as Hnone.
    assert (Hrest : forall f, In f rest -> exists v, firstValue f = Some v)
      by (intros f Hf; apply Hv; right; exact Hf).
    specialize (IH Hrest false).
    destruct (buildFilterClause clock g) as [c|].
    + destruct (buildFilterClauses clock false rest) as [more|].
      * split; [discriminate|].
        intros (f & [<-|Hin] & Hf).
        -- apply Hnone in Hf. discriminate.
        -- assert (Hsome : @None (list string) = None
                           <-> exists f, In f rest
                                 /\ QueryParser.normalizeFieldName (field f) = None)
             by (split; [intros _|reflexivity]; eauto).
           exfalso. assert (Hx : Some more = None) by (apply IH; eauto).
           discriminate.
      * split; [|reflexivity]. intros _.
        destruct IH as [IH _]. destruct (IH eq_refl) as (f & Hin & Hf).
        exists f. split; [right; exact Hin | exact Hf].
    + split; [|reflexivity]. intros _. exists g. split; [left; reflexivity|].
      apply Hnone. reflexivity.
Qed.

End CompileFacts.



(** X6.  Alias normalization is idempotent: the canonical name of a field
    (of ASCII text) is its own canonical name. *)
Theorem normalizeFieldName_idempotent (fld canonical : string) :
  asciiOnly fld = true ->
  QueryParser.normalizeFieldName fld = Some canonical ->
  QueryParser.normalizeFieldName canonical = Some canonical.
Proof.
  intros _. unfold QueryParser.normalizeFieldName at 1.
  repeat match goal with
         | |- context [if String.eqb (toLowerCase fld) ?b then _ else _] =>
             destruct (String.eqb (toLowerCase fld) b) eqn:?
         end;
    try (intros [= <-]; reflexivity).
  destruct (String.eqb (toLowerCase fld) "constructor"
            || String.eqb (toLowerCase fld) "__proto__") eqn:Hinherited;
    [discriminate|].
  intros [= <-].
  unfold QueryParser.normalizeFieldName.
  repeat match goal with
         | H : String.eqb _ _ = false |- _ => rewrite H; clear H
         end.
  rewrite Hinherited. reflexivity.
Qed.

Lemma normalizeFieldName_idempotent_witness :
  asciiOnly "Due" = true
  /\ QueryParser.normalizeFieldName "Due" = Some "due_date"
  /\ QueryParser.normalizeFieldName "due_date" = Some "due_date".
Proof.
  assert (H0 : asciiOnly "Due" = true) by (vm_compute; reflexivity).
  assert (H1 : QueryParser.normalizeFieldName "Due" = Some "due_date")
    by (vm_compute; reflexivity).
  split; [exact H0|]. split; [exact H1|].
  exact (normalizeFieldName_idempotent _ _ H0 H1).
Defined.

(* ===================================================================== *)
(** ** Decimal numerals *)
(* ===================================================================== *)

Section Numerals.

Lemma digitsVal_uint_acc (d : Decimal.uint) (r : string) :
  forall p : positive,
  digitsVal (Z.pos p) (NilEmpty.string_of_uint d +:+ r)
  = digitsVal (Z.pos (Pos.of_uint_acc d p)) r.
Proof.
  induction d; intros p; cbn [NilEmpty.string_of_uint Pos.of_uint_acc]; rewrite ?append_cons;
    try reflexivity;
    cbn [digitsVal]; change (isDigit _) with true; cbv iota;
    rewrite <- IHd; f_equal;
    match goal with
    | |- context [digitVal ?c] =>
        let v := eval vm_compute in (digitVal c) in change (digitVal c) with v
    end; lia.
Qed.

Lemma digitsVal_uint (d : Decimal.uint) (r : string) :
  digitsVal 0 (NilEmpty.string_of_uint d +:+ r)
  = digitsVal (Z.of_N (Pos.of_uint d)) r.
Proof.
  induction d; cbn [NilEmpty.string_of_uint Pos.of_uint]; rewrite ?append_cons;
    try reflexivity;
    cbn [digitsVal]; change (isDigit _) with true; cbv iota;
    try (rewrite <- IHd; reflexivity);
    cbn [Z.of_N]; rewrite <- digitsVal_uint_acc; reflexivity.
Qed.

Lemma trimDigits_uint (d : Decimal.uint) (r : string) :
  trimDigits (NilEmpty.string_of_uint d +:+ r) = trimDigits r.
Proof.
  induction d; cbn [NilEmpty.string_of_uint]; rewrite ?append_cons; try reflexivity;
    cbn [trimDigits]; change (isDigit _) with true; cbv iota; exact IHd.
Qed.

Lemma uint_starts_with_digit (d : Decimal.uint) (r : string) :
  d <> Decimal.Nil ->
  exists c rest, NilEmpty.string_of_uint d +:+ r = String c rest
                 /\ isDigit c = true /\ isSpace c = false.
Proof.
  destruct d; [congruence | ..]; intros _;
    cbn [NilEmpty.string_of_uint]; rewrite ?append_cons; eexists _, _;
    (split; [reflexivity | split; reflexivity]).
Qed.

(** The numeral of an integer that is not negative. *)
Lemma ofZ_numeral (n : Z) :
  0 <= n ->
  exists d, ofZ n = NilEmpty.string_of_uint d
            /\ d <> Decimal.Nil /\ Z.of_N (Pos.of_uint d) = n.
Proof.
  intros Hn. unfold ofZ. pose proof (DecimalZ.of_to n) as Hrt.
  destruct n as [|p|p]; [| |lia]; cbn [Z.to_int] in *.
  - exists (Decimal.D0 Decimal.Nil). repeat split; congruence.
  - exists (Pos.to_uint p). repeat split.
    + apply DecimalPos.Unsigned.to_uint_nonnil.
    + exact Hrt.
Qed.

(** Reading back what was printed: [parseInt] of the numeral of [n], with
    anything that is not a digit after it, is [n]. *)
Lemma parseInt_ofZ (n : Z) (r : string) :
  startsWithDigit r = false ->
  parseInt (ofZ n +:+ r) = Some n.
Proof.
  intros Hr.
  assert (Hstop : forall x, digitsVal x r = x).
  { intros x. destruct r as [|c r]; [reflexivity|]. simpl in Hr.
    cbn [digitsVal]. rewrite Hr. reflexivity. }
  destruct (Z.neg_nonneg_cases n) as [Hneg | Hpos].
  - destruct n as [|p|p]; try lia.
    change (ofZ (Z.neg p)) with (String "-" (NilEmpty.string_of_uint (Pos.to_uint p))).
    unfold parseInt. rewrite append_cons. cbn [trimStart].
    change (isSpace "-") with false. cbv iota.
    destruct (uint_starts_with_digit (Pos.to_uint p) r
                (DecimalPos.Unsigned.to_uint_nonnil p))
      as (c & rest & Hs & Hdig & _).
    unfold startsWithDigit. rewrite Hs, Hdig, <- Hs.
    rewrite digitsVal_uint, Hstop, DecimalPos.Unsigned.of_to. reflexivity.
  - destruct (ofZ_numeral n Hpos) as (d & Hd & Hnil & Hval).
    rewrite Hd. unfold parseInt.
    destruct (uint_starts_with_digit d r Hnil) as (c & rest & Hs & Hdig & Hsp).
    rewrite Hs. cbn [trimStart]. rewrite Hsp.
    assert (Hminus : c <> "-"%char) by (intros ->; discriminate).
    assert (Hplus : c <> "+"%char) by (intros ->; discriminate).
    assert (Hgo : (if startsWithDigit (String c rest)
                   then Some (digitsVal 0 (String c rest)) else None) = Some n).
    { unfold startsWithDigit. rewrite Hdig, <- Hs, digitsVal_uint, Hstop, Hval.
      reflexivity. }
    destruct c as [[|] [|] [|] [|] [|] [|] [|] [|]]; try exact Hgo;
      try congruence.
Qed.

End Numerals.

(* ===================================================================== *)
(** ** Relative dates *)
(* ===================================================================== *)

Section Calendar.

(** The day number of the year, month and day of a day number is that day
    number. *)
Lemma makeDay_civil (n : Z) :
  JsDate.makeDay (JsDate.getFullYear n) (JsDate.getMonth n) (JsDate.getDate n) = n.
Proof.
  unfold JsDate.getFullYear, JsDate.getMonth, JsDate.getDate, JsDate.civil, JsDate.makeDay.
  cbv zeta.
  set (z := n + 719468).
  set (era := z / 146097).
  set (doe := z - era * 146097).
  assert (Hdoe : 0 <= doe <= 146096) by (subst doe era; Z.div_mod_to_equations; lia).
  set (yoe := (doe - doe / 1460 + doe / 36524 - doe / 146096) / 365).
  set (doy := doe - (365 * yoe + yoe / 4 - yoe / 100)).
  assert (Hb : 0 <= yoe <= 399 /\ 0 <= doy <= 365).
  { subst doy yoe. clearbody doe. Z.div_mod_to_equations; lia. }
  set (mp := (5 * doy + 2) / 153).
  assert (Hmp : 0 <= mp <= 11) by (subst mp; Z.div_mod_to_equations; lia).
  clearbody mp yoe.
  destruct (Z.ltb_spec mp 10).
  - destruct (Z.leb_spec (mp + 3) 2); [lia|].
    assert (E1 : (mp + 3 - 1) mod 12 + 1 = mp + 3)
      by (Z.div_mod_to_equations; lia).
    assert (E2 : (mp + 3 - 1) / 12 = 0) by (Z.div_mod_to_equations; lia).
    rewrite E1, E2.
    destruct (Z.leb_spec (mp + 3) 2); [lia|].
    destruct (Z.ltb_spec 2 (mp + 3)); [|lia].
    assert (E3 : (yoe + era * 400 + 0 + 0) / 400 = era)
      by (Z.div_mod_to_equations; lia).
    rewrite E3.
    replace (yoe + era * 400 + 0 + 0 - era * 400) with yoe by lia.
    replace (mp + 3 - 3) with mp by lia.
    subst doy doe z. lia.
  - destruct (Z.leb_spec (mp - 9) 2); [|lia].
    assert (E1 : (mp - 9 - 1) mod 12 + 1 = mp - 9)
      by (Z.div_mod_to_equations; lia).
    assert (E2 : (mp - 9 - 1) / 12 = 0) by (Z.div_mod_to_equations; lia).
    rewrite E1, E2.
    destruct (Z.leb_spec (mp - 9) 2); [|lia].
    destruct (Z.ltb_spec 2 (mp - 9)); [lia|].
    assert (E3 : (yoe + era * 400 + 1 + 0 - 1) / 400 = era)
      by (Z.div_mod_to_equations; lia).
    rewrite E3.
    replace (yoe + era * 400 + 1 + 0 - 1 - era * 400) with yoe by lia.
    replace (mp - 9 + 9) with mp by lia.
    subst doy doe z. lia.
Qed.

End Calendar.

Section RelativeDates.
Import QueryParser.

Lemma makeDay_day (y m d k : Z) :
  JsDate.makeDay y m (d + k) = JsDate.makeDay y m d + k.
Proof. unfold JsDate.makeDay. cbv zeta. ring. Qed.

Lemma addDate_days (k n : Z) :
  JsDate.addDate k (Some n) = JsDate.timeClip (n + k).
Proof.
  unfold JsDate.addDate. rewrite makeDay_day, makeDay_civil. reflexivity.
Qed.

Lemma spanSpace_one (c : ascii) (s : string) :
  isSpace c = false ->
  spanSpace (String " " (String c s)) = (1%nat, String c s).
Proof.
  intros Hc. cbn [spanSpace]. change (isSpace " ") with true. rewrite Hc.
  reflexivity.
Qed.

(** The offset part of a relative date, written with single spaces and
    the numeral of [n]. *)
Lemma matchOffset_numeral (sign unit : ascii) (n : Z) :
  0 <= n ->
  sign = "+"%char \/ sign = "-"%char ->
  In unit ["d"; "w"; "m"; "y"]%char ->
  matchOffset (String " " (String sign (String " "
                 (ofZ n +:+ String unit EmptyString))))
  = Some (Ascii.eqb sign "-", n, unit).
Proof.
  intros Hn Hsign Hunit.
  destruct (ofZ_numeral n Hn) as (d & -> & Hnil & Hval).
  destruct (uint_starts_with_digit d (String unit EmptyString) Hnil)
    as (c & rest & Hs & Hdig & Hsp).
  assert (Hu : isDigit unit = false /\ lowerChar unit = unit
               /\ (Ascii.eqb unit "d" || Ascii.eqb unit "w"
                   || Ascii.eqb unit "m" || Ascii.eqb unit "y") = true).
  { simpl in Hunit.
    destruct Hunit as [<-|[<-|[<-|[<-|[]]]]]; repeat split; reflexivity. }
  destruct Hu as (Hud & Hul & Huok).
  unfold matchOffset.
  assert (Hss : isSpace sign = false) by (destruct Hsign as [->| ->]; reflexivity).
  rewrite (spanSpace_one sign _ Hss).
  assert (Hok : (Ascii.eqb sign "+" || Ascii.eqb sign "-") = true)
    by (destruct Hsign as [->| ->]; reflexivity).
  rewrite Hok, Hs, (spanSpace_one c rest Hsp).
  unfold startsWithDigit. rewrite Hdig, <- Hs.
  rewrite trimDigits_uint. cbn [trimDigits]. rewrite Hud, Hul, Huok.
  rewrite digitsVal_uint. cbn [digitsVal]. rewrite Hud, Hval. reflexivity.
Qed.

Lemma relativeMatch_today (sign unit : ascii) (n : Z) :
  0 <= n ->
  sign = "+"%char \/ sign = "-"%char ->
  In unit ["d"; "w"; "m"; "y"]%char ->
  relativeMatch ("today " +:+ String sign (String " "
                   (ofZ n +:+ String unit EmptyString)))
  = Some (Today, Ascii.eqb sign "-", n, unit).
Proof.
  intros Hn Hsign Hunit. unfold relativeMatch. cbv zeta beta.
  assert (Hp : stripPrefix true "today"
                 ("today " +:+ String sign (String " "
                    (ofZ n +:+ String unit EmptyString)))
               = Some (String " " (String sign (String " "
                    (ofZ n +:+ String unit EmptyString)))))
    by reflexivity.
  rewrite Hp, (matchOffset_numeral sign unit n Hn Hsign Hunit). reflexivity.
Qed.

End RelativeDates.



(* ===================================================================== *)
(** ** More on the optimizer *)
(* ===================================================================== *)

(** X8.  Whatever the query and the settings, [optimize] returns a query
    with a limit, and that limit does not exceed the configured maximum;
    the filters and the sort conditions are the ones it was given. *)
Theorem optimize_sets_bounded_limit (settings : QueryOptimizationSettings)
    (q : ParsedQuery) :
  (exists l, limit (QueryOptimizer.optimize settings q) = Some l
             /\ l <= maxResults settings)
  /\ filters (QueryOptimizer.optimize settings q) = filters q
  /\ sorts (QueryOptimizer.optimize settings q) = sorts q.
Proof.
  split; [|apply optimize_filters_sorts].
  rewrite optimize_limit.
  destruct (limit q) as [n|]; [|eexists; split; [reflexivity|lia]].
  destruct (Z.eqb_spec n 0); [eexists; split; [reflexivity|lia]|].
  destruct (Z.ltb_spec (maxResults settings) n);
    eexists; (split; [reflexivity|lia]).
Qed.

(** X9.  Optimizing twice is optimizing once. *)
Theorem optimize_idempotent (settings : QueryOptimizationSettings)
    (q : ParsedQuery) :
  QueryOptimizer.optimize settings (QueryOptimizer.optimize settings q)
  = QueryOptimizer.optimize settings q.
Proof.
  pose proof (optimize_limit settings q) as Hl.
  destruct (optimize_filters_sorts settings q) as [Hf Hs].
  pose proof (optimize_limit settings (QueryOptimizer.optimize settings q)) as Hl2.
  destruct (optimize_filters_sorts settings (QueryOptimizer.optimize settings q))
    as [Hf2 Hs2].
  assert (Hsame : limit (QueryOptimizer.optimize settings
                           (QueryOptimizer.optimize settings q))
                  = limit (QueryOptimizer.optimize settings q)).
  { rewrite Hl2, Hl.
    destruct (limit q) as [n|];
      repeat match goal with
             | |- context [Z.eqb ?a ?b] => destruct (Z.eqb_spec a b)
             | |- context [Z.ltb ?a ?b] => destruct (Z.ltb_spec a b)
             end;
      first [reflexivity | f_equal; lia | lia]. }
  destruct (QueryOptimizer.optimize settings (QueryOptimizer.optimize settings q))
    as [f2 s2 l2].
  destruct (QueryOptimizer.optimize settings q) as [f1 s1 l1].
  simpl in *. congruence.
Qed.

(** X10.  With a positive maximum and a limit that is missing or not
    negative, the optimized limit is positive and at most the maximum: the
    smaller of the two for a positive limit of the caller, the maximum for
    a missing or zero one. *)
Theorem optimize_takes_the_smaller_limit (settings : QueryOptimizationSettings)
    (q : ParsedQuery) :
  0 < maxResults settings ->
  match limit q with Some n => 0 <= n | None => True end ->
  exists l, limit (QueryOptimizer.optimize settings q) = Some l
    /\ 0 < l <= maxResults settings
    /\ match limit q with
       | Some n => if 0 <? n then l = Z.min n (maxResults settings)
                   else l = maxResults settings
       | None => l = maxResults settings
       end.
Proof.
  intros Hmax Hn. rewrite optimize_limit.
  destruct (limit q) as [n|]; [|exists (maxResults settings); repeat split; lia].
  destruct (Z.eqb_spec n 0) as [->|Hz].
  - exists (maxResults settings). simpl. repeat split; lia.
  - destruct (Z.ltb_spec (maxResults settings) n).
    + exists (maxResults settings). destruct (Z.ltb_spec 0 n); repeat split; lia.
    + exists n. destruct (Z.ltb_spec 0 n); repeat split; lia.
Qed.

Lemma optimize_takes_the_smaller_limit_witness :
  0 < maxResults DEFAULT_OPTIMIZATION_SETTINGS
  /\ exists l,
       limit (QueryOptimizer.optimize DEFAULT_OPTIMIZATION_SETTINGS
                (QueryParser.parse ("tasks" +:+ Scenario.nl +:+ "limit 5000")))
       = Some l
       /\ 0 < l <= maxResults DEFAULT_OPTIMIZATION_SETTINGS
       /\ l = Z.min 5000 (maxResults DEFAULT_OPTIMIZATION_SETTINGS).
Proof.
  assert (Hmax : 0 < maxResults DEFAULT_OPTIMIZATION_SETTINGS)
    by (vm_compute; reflexivity).
  split; [exact Hmax|].
  assert (Hl : match limit (QueryParser.parse
                              ("tasks" +:+ Scenario.nl +:+ "limit 5000")) with
               | Some n => 0 <= n
               | None => True
               end).
  { vm_compute. discriminate. }
  destruct (optimize_takes_the_smaller_limit DEFAULT_OPTIMIZATION_SETTINGS
              (QueryParser.parse ("tasks" +:+ Scenario.nl +:+ "limit 5000"))
              Hmax Hl)
    as (l & Hlim & Hrange & Hmin).
  exists l. split; [exact Hlim|]. split; [exact Hrange|].
  change (limit (QueryParser.parse ("tasks" +:+ Scenario.nl +:+ "limit 5000")))
    with (Some 5000) in Hmin.
  exact Hmin.
Defined.

(** X11.  With a maximum that is not zero, an optimized query is never
    rejected as an unbounded scan: [validateQuery] rejects it exactly when
    one of its filters has a list value of more than 100 elements. *)
Theorem optimized_query_rejected_only_for_long_lists
    (settings : QueryOptimizationSettings) (q : ParsedQuery) :
  maxResults settings <> 0 ->
  (valid (QueryOptimizer.validateQuery (QueryOptimizer.optimize settings q)) = false
   <-> oversizedList q).
Proof.
  intros Hmax.
  destruct (validateQuery_verdict (QueryOptimizer.optimize settings q))
    as [Hvalid _].
  destruct (optimize_filters_sorts settings q) as [Hf _].
  assert (Hlim : QueryOptimizer.noLimit
                   (limit (QueryOptimizer.optimize settings q)) = false).
  { rewrite optimize_limit. unfold QueryOptimizer.noLimit.
    destruct (limit q) as [n|];
      repeat match goal with
             | |- context [Z.eqb ?a ?b] => destruct (Z.eqb_spec a b)
             | |- context [Z.ltb ?a ?b] => destruct (Z.ltb_spec a b)
             end;
      first [reflexivity | contradiction | lia]. }
  rewrite Hvalid, Hlim, andb_false_r, orb_false_l, negb_false_iff, Hf.
  apply oversizedList_existsb.
Qed.

Lemma optimized_query_rejected_only_for_long_lists_witness :
  maxResults DEFAULT_OPTIMIZATION_SETTINGS <> 0
  /\ (valid (QueryOptimizer.validateQuery
               (QueryOptimizer.optimize DEFAULT_OPTIMIZATION_SETTINGS
                  (QueryParser.parse "tasks"))) = false
      <-> oversizedList (QueryParser.parse "tasks")).
Proof.
  assert (Hmax : maxResults DEFAULT_OPTIMIZATION_SETTINGS <> 0)
    by (vm_compute; discriminate).
  split; [exact Hmax|].
  exact (optimized_query_rejected_only_for_long_lists
           DEFAULT_OPTIMIZATION_SETTINGS (QueryParser.parse "tasks") Hmax).
Defined.
